(** * SwiftLanguageServer: start-up handshake and readiness inference

    A shallow embedding of
    [src/solidlsp/language_servers/swift_language_server/swift_language_server.py]:
    the ignored-directory test, the initialize parameters, the six handlers
    that [_start_server] installs on the transport, and [_start_server]
    itself, as state-passing functions over a record holding the fields of
    the Python object.  The theorems at the end settle the specification's
    statements about readiness, the handshake and the handler replies. *)

From Stdlib Require Import ZArith QArith Ascii.
From stdpp Require Import gmap strings list fin_maps.

Set Warnings "-register-all".
#[local] Open Scope string_scope.
#[local] Open Scope Z_scope.

(** ** Python values *)

(** The values that travel through the handlers are decoded JSON documents:
    [None], booleans, integers, floats, strings, lists and string-keyed
    dictionaries.  Two dictionaries are equal when they hold the same
    entries, which is the equality of [gmap]. *)
Inductive json : Type :=
  | JNull
  | JBool (b : bool)
  | JInt (n : Z)
  | JFloat (x : Q)
  | JStr (s : string)
  | JList (l : list json)
  | JObj (m : gmap string json).

(** A dictionary display [{k1: v1, ..., kn: vn}] with distinct keys. *)
Definition dict (entries : list (string * json)) : json :=
  JObj (list_to_map entries).

(** A list display of integers, [[1, 2, ...]]. *)
Definition ints (l : list Z) : json := JList (JInt <$> l).

(** A list display of strings. *)
Definition strs (l : list string) : json := JList (JStr <$> l).

(** The exceptions the modelled code can raise. *)
Inductive exn : Type :=
  | AttributeError
  | TypeError
  | ValueError
  | AssertionError (msg : string).

(** The result of evaluating a Python expression or call. *)
Inductive outcome (A : Type) : Type :=
  | Ret (a : A)
  | Raise (e : exn).
Arguments Ret {A} a.
Arguments Raise {A} e.

(** ** Strings *)

(** Strings are Python strings in UTF-8.  [str.lower] works on code
    points, one at a time: the ASCII letters [A]..[Z] move to [a]..[z] and
    the other ASCII characters stay.  Outside ASCII two code points have
    ASCII in their lowercase form: U+212A, the Kelvin sign (bytes 226 132
    170), becomes [k], and U+0130, the dotted capital I (bytes 196 176),
    becomes [i] followed by U+0307 (bytes 204 135).  Every other code
    point becomes code points outside ASCII; its bytes are left as they
    are here, where the lowered text is only searched for keywords. *)
Definition ascii_lower (c : ascii) : ascii :=
  let n := nat_of_ascii c in
  if ((65 <=? n) && (n <=? 90))%nat then ascii_of_nat (n + 32) else c.

Definition utf8_kelvin (c c1 c2 : ascii) : bool :=
  Ascii.eqb c "226" && Ascii.eqb c1 "132" && Ascii.eqb c2 "170".

Definition utf8_dotted_I (c c1 : ascii) : bool :=
  Ascii.eqb c "196" && Ascii.eqb c1 "176".

Fixpoint lower (s : string) : string :=
  match s with
  | EmptyString => EmptyString
  | String c s' =>
      match s' with
      | EmptyString => String (ascii_lower c) EmptyString
      | String c1 s'' =>
          if utf8_dotted_I c c1
          then String "i" (String "204" (String "135" (lower s'')))
          else
            match s'' with
            | EmptyString => String (ascii_lower c) (lower s')
            | String c2 rest =>
                if utf8_kelvin c c1 c2 then String "k" (lower rest)
                else String (ascii_lower c) (lower s')
            end
      end
  end.

(** [len] of a string: the number of its code points, which is the number
    of bytes that do not continue a UTF-8 sequence. *)
Definition utf8_continuation (c : ascii) : bool :=
  let n := nat_of_ascii c in ((128 <=? n) && (n <? 192))%nat.

Fixpoint py_str_len (s : string) : nat :=
  match s with
  | EmptyString => 0%nat
  | String c s' => ((if utf8_continuation c then 0 else 1) + py_str_len s')%nat
  end.

(** [needle in hay] for two strings: [needle] occurs in [hay] as a
    contiguous run of characters. *)
Fixpoint py_str_in (needle hay : string) : bool :=
  String.prefix needle hay ||
  match hay with
  | EmptyString => false
  | String _ hay' => py_str_in needle hay'
  end.

(** [any(keyword in text.lower() for keyword in keywords)]. *)
Definition any_keyword_in_lower (keywords : list string) (text : string) : bool :=
  existsb (fun keyword => py_str_in keyword (lower text)) keywords.

(** ** Operations on values *)

(** [d.get(key, default)]: defined on dictionaries only. *)
Definition py_get (d : json) (key : string) (default : json) : outcome json :=
  match d with
  | JObj m => Ret (match m !! key with Some v => v | None => default end)
  | _ => Raise AttributeError
  end.

(** [v == s] for a string literal [s]: true for that very string only. *)
Definition py_eq_str (v : json) (s : string) : bool :=
  match v with
  | JStr t => String.eqb t s
  | _ => false
  end.

(** [key in c] for a string literal [key]: a key of a dictionary, an
    element of a list, a substring of a string; other values are not
    containers. *)
Definition py_in (key : string) (c : json) : outcome bool :=
  match c with
  | JObj m => Ret (bool_decide (is_Some (m !! key)))
  | JList l => Ret (existsb (fun v => py_eq_str v key) l)
  | JStr s => Ret (py_str_in key s)
  | _ => Raise TypeError
  end.

(** [len(c)]. *)
Definition py_len (c : json) : outcome nat :=
  match c with
  | JObj m => Ret (size m)
  | JList l => Ret (length l)
  | JStr s => Ret (py_str_len s)
  | _ => Raise TypeError
  end.

(** [v.lower()]: a method of strings only. *)
Definition py_lower (v : json) : outcome string :=
  match v with
  | JStr s => Ret (lower s)
  | _ => Raise AttributeError
  end.

(** ** Ignored directories *)

(** The literal list of [is_ignored_dirname]. *)
Definition swift_ignored_dirnames : list string :=
  [ ".build"; ".swiftpm"; "build"; "DerivedData"; ".DS_Store"; "xcuserdata";
    "*.xcworkspace"; "*.xcodeproj" ].

(** [dirname in [...]] for a list of strings: equality with an element. *)
Definition str_in_list (s : string) (l : list string) : bool :=
  existsb (String.eqb s) l.

Section IgnoredDirname.

(** [SolidLanguageServer.is_ignored_dirname], the method overridden. *)
Variable super_is_ignored_dirname : string -> bool.

Definition is_ignored_dirname (dirname : string) : bool :=
  super_is_ignored_dirname dirname || str_in_list dirname swift_ignored_dirnames.

End IgnoredDirname.

(** ** The object and its transport *)

(** An f-string, kept as its literal segments and the values it formats. *)
Inductive piece : Type :=
  | Lit (s : string)
  | Fmt (v : json).

Definition fstring : Type := list piece.

(** [logging.INFO] and [logging.WARNING]. *)
Definition INFO : Z := 20.
Definition WARNING : Z := 30.

(** The closures [_start_server] defines and hands to the transport. *)
Inductive handler : Type :=
  | H_execute_client_command_handler
  | H_do_nothing
  | H_window_log_message
  | H_window_show_message
  | H_progress_notification
  | H_workspace_configuration_handler.

(** What crosses the transport, in the order it happens. *)
Inductive wire_event : Type :=
  | Started
  | SentRequest (method : string) (params : json)
  | ReceivedResponse (result : json)
  | SentNotification (method : string) (params : json)
  | ReceivedNotification (method : string) (params : json)
  | ReceivedRequest (method : string) (params : json)
  | SentReply (result : json)
  | SentErrorReply.

(** [self.server]: the handler tables filled by [on_request] and
    [on_notification], and the traffic so far. *)
Record transport : Type := mk_transport {
  request_handlers : gmap string handler;
  notification_handlers : gmap string handler;
  wire : list wire_event
}.

(** The fields of a [SwiftLanguageServer] that the modelled methods read or
    write.  A [threading.Event] is its flag. *)
Record SwiftLanguageServer : Type := mk_self {
  repository_root_path : string;
  analysis_complete : bool;
  completions_available : bool;
  found_source_files : bool;
  logger : list (fstring * Z);
  server : transport
}.

(** [__init__]: a fresh analysis event, no source files found; the
    completions event is the base class's, taken as [super().__init__]
    leaves it. *)
Definition init (root : string) (completions : bool) : SwiftLanguageServer :=
  {| repository_root_path := root;
     analysis_complete := false;
     completions_available := completions;
     found_source_files := false;
     logger := [];
     server := {| request_handlers := ∅; notification_handlers := ∅; wire := [] |} |}.

(** ** Statements: state passing with exceptions *)

(** A statement runs on the object and leaves it changed, also when it
    raises. *)
Definition M (A : Type) : Type :=
  SwiftLanguageServer -> outcome A * SwiftLanguageServer.

Definition ret {A} (a : A) : M A := fun self => (Ret a, self).

Definition raise {A} (e : exn) : M A := fun self => (Raise e, self).

Definition bind {A B} (m : M A) (k : A -> M B) : M B :=
  fun self =>
    match m self with
    | (Ret a, self') => k a self'
    | (Raise e, self') => (Raise e, self')
    end.

Declare Scope py_scope.
Delimit Scope py_scope with py.
Notation "x <- m ;; k" := (bind m (fun x => k))
  (at level 100, m at next level, right associativity) : py_scope.
Notation "m ;; k" := (bind m (fun _ => k))
  (at level 100, right associativity) : py_scope.
#[local] Open Scope py_scope.

(** An expression that touches no field. *)
Definition eval {A} (o : outcome A) : M A := fun self => (o, self).

(** Reading a field. *)
Definition get {A} (field : SwiftLanguageServer -> A) : M A :=
  fun self => (Ret (field self), self).

(** Assignments to one field. *)
Definition with_logger (l : list (fstring * Z)) (self : SwiftLanguageServer)
    : SwiftLanguageServer :=
  {| repository_root_path := repository_root_path self;
     analysis_complete := analysis_complete self;
     completions_available := completions_available self;
     found_source_files := found_source_files self;
     logger := l;
     server := server self |}.

Definition with_found_source_files (b : bool) (self : SwiftLanguageServer)
    : SwiftLanguageServer :=
  {| repository_root_path := repository_root_path self;
     analysis_complete := analysis_complete self;
     completions_available := completions_available self;
     found_source_files := b;
     logger := logger self;
     server := server self |}.

Definition with_analysis_complete (b : bool) (self : SwiftLanguageServer)
    : SwiftLanguageServer :=
  {| repository_root_path := repository_root_path self;
     analysis_complete := b;
     completions_available := completions_available self;
     found_source_files := found_source_files self;
     logger := logger self;
     server := server self |}.

Definition with_completions_available (b : bool) (self : SwiftLanguageServer)
    : SwiftLanguageServer :=
  {| repository_root_path := repository_root_path self;
     analysis_complete := analysis_complete self;
     completions_available := b;
     found_source_files := found_source_files self;
     logger := logger self;
     server := server self |}.

Definition with_server (t : transport) (self : SwiftLanguageServer)
    : SwiftLanguageServer :=
  {| repository_root_path := repository_root_path self;
     analysis_complete := analysis_complete self;
     completions_available := completions_available self;
     found_source_files := found_source_files self;
     logger := logger self;
     server := t |}.

(** [self.logger.log(text, level)]. *)
Definition log (text : fstring) (level : Z) : M unit :=
  fun self => (Ret tt, with_logger (logger self ++ [(text, level)]) self).

(** [self.found_source_files = True]. *)
Definition set_found_source_files : M unit :=
  fun self => (Ret tt, with_found_source_files true self).

(** [self.analysis_complete.set()]. *)
Definition analysis_complete_set : M unit :=
  fun self => (Ret tt, with_analysis_complete true self).

(** [self.completions_available.set()]. *)
Definition completions_available_set : M unit :=
  fun self => (Ret tt, with_completions_available true self).

(** A change of [self.server]. *)
Definition on_server (f : transport -> transport) : M unit :=
  fun self => (Ret tt, with_server (f (server self)) self).

(** ** The handlers of [_start_server] *)

(** [any(keyword in v.lower() for keyword in keywords)]: the generator
    evaluates [v.lower()] once per keyword tried and stops at the first
    keyword found. *)
Fixpoint py_any_keyword_in_lower (keywords : list string) (v : json) : outcome bool :=
  match keywords with
  | [] => Ret false
  | keyword :: rest =>
      match py_lower v with
      | Ret text =>
          if py_str_in keyword text then Ret true
          else py_any_keyword_in_lower rest v
      | Raise e => Raise e
      end
  end.

(** The keyword lists of the three readiness handlers. *)
Definition log_message_keywords : list string :=
  [ "indexing complete"; "finished indexing"; "build complete";
    "compilation finished"; "swift package resolved" ].

Definition show_message_keywords : list string :=
  [ "package resolution complete"; "build succeeded"; "indexing finished" ].

Definition progress_keywords : list string :=
  [ "indexing"; "building"; "resolving" ].

Definition execute_client_command_handler (params : json) : M json :=
  ret (JList []).

Definition do_nothing (params : json) : M json :=
  ret JNull.

Definition window_log_message (msg : json) : M json :=
  message_text <- eval (py_get msg "message" (JStr "")) ;;
  log [Lit "LSP: window/logMessage: "; Fmt message_text] INFO ;;
  found <- eval (py_any_keyword_in_lower log_message_keywords message_text) ;;
  if found : bool then
    log [Lit "SourceKit-LSP workspace analysis complete"] INFO ;;
    set_found_source_files ;;
    analysis_complete_set ;;
    completions_available_set ;;
    ret JNull
  else ret JNull.

Definition window_show_message (msg : json) : M json :=
  message_text <- eval (py_get msg "message" (JStr "")) ;;
  message_type <- eval (py_get msg "type" (JInt 1)) ;;
  log [Lit "LSP: window/showMessage (type="; Fmt message_type; Lit "): ";
       Fmt message_text] INFO ;;
  found <- eval (py_any_keyword_in_lower show_message_keywords message_text) ;;
  if found : bool then
    log [Lit "SourceKit-LSP analysis detected via showMessage"] INFO ;;
    already <- get found_source_files ;;
    if negb already then
      set_found_source_files ;;
      analysis_complete_set ;;
      completions_available_set ;;
      ret JNull
    else ret JNull
  else ret JNull.

Definition progress_notification (params : json) : M json :=
  value <- eval (py_get params "value" (JObj ∅)) ;;
  kind <- eval (py_get value "kind" (JStr "")) ;;
  message <- eval (py_get value "message" (JStr "")) ;;
  found <- eval (if py_eq_str kind "end"
                 then py_any_keyword_in_lower progress_keywords message
                 else Ret false) ;;
  if found : bool then
    log [Lit "SourceKit-LSP progress end: "; Fmt message] INFO ;;
    already <- get found_source_files ;;
    if negb already then
      set_found_source_files ;;
      analysis_complete_set ;;
      completions_available_set ;;
      ret JNull
    else ret JNull
  else ret JNull.

Definition workspace_configuration_handler (params : json) : M json :=
  items <- eval (py_get params "items" (JList [])) ;;
  n <- eval (py_len items) ;;
  ret (JList (replicate n (JObj ∅))).

(** Calling a registered closure. *)
Definition call (h : handler) (params : json) : M json :=
  match h with
  | H_execute_client_command_handler => execute_client_command_handler params
  | H_do_nothing => do_nothing params
  | H_window_log_message => window_log_message params
  | H_window_show_message => window_show_message params
  | H_progress_notification => progress_notification params
  | H_workspace_configuration_handler => workspace_configuration_handler params
  end.

(** ** The initialize parameters *)

Section InitializeParams.

(** [os.getpid()]: the id of the running process. *)
Variable os_getpid : Z.

(** [pathlib.Path(p).as_uri()] as the running process evaluates it: the
    [file:] URI of an absolute path, its bytes taken in the file-system
    encoding of the process.  It raises [ValueError] on a relative path and
    on a path that encoding cannot express (a [UnicodeEncodeError], which
    is a [ValueError]). *)
Variable path_as_uri : string -> outcome string.

(** [os.path.basename], as the platform of the process has it. *)
Variable os_path_basename : string -> string.

Definition symbol_kinds : json :=
  ints [1; 2; 3; 4; 5; 6; 7; 8; 9; 10; 11; 12; 13; 14; 15; 16; 17; 18; 19; 20;
        21; 22; 23; 24; 25; 26].

Definition completion_item_kinds : json :=
  ints [1; 2; 3; 4; 5; 6; 7; 8; 9; 10; 11; 12; 13; 14; 15; 16; 17; 18; 19; 20;
        21; 22; 23; 24; 25].

Definition dynamic_registration : json :=
  dict [("dynamicRegistration", JBool true)].

Definition workspace_capabilities : json :=
  dict [
    ("applyEdit", JBool true);
    ("workspaceEdit", dict [("documentChanges", JBool true)]);
    ("didChangeConfiguration", dynamic_registration);
    ("didChangeWatchedFiles", dynamic_registration);
    ("symbol", dict [
      ("dynamicRegistration", JBool true);
      ("symbolKind", dict [("valueSet", symbol_kinds)])]);
    ("executeCommand", dynamic_registration);
    ("workspaceFolders", JBool true);
    ("configuration", JBool true)].

Definition completion_capabilities : json :=
  dict [
    ("dynamicRegistration", JBool true);
    ("contextSupport", JBool true);
    ("completionItem", dict [
      ("snippetSupport", JBool true);
      ("commitCharactersSupport", JBool true);
      ("documentationFormat", strs ["markdown"; "plaintext"]);
      ("deprecatedSupport", JBool true);
      ("preselectSupport", JBool true);
      ("tagSupport", dict [("valueSet", ints [1; 2])]);
      ("insertReplaceSupport", JBool true);
      ("resolveSupport", dict [
        ("properties", strs ["documentation"; "detail"; "additionalTextEdits"])])]);
    ("completionItemKind", dict [("valueSet", completion_item_kinds)]);
    ("insertTextMode", JInt 2)].

Definition signature_help_capabilities : json :=
  dict [
    ("dynamicRegistration", JBool true);
    ("signatureInformation", dict [
      ("documentationFormat", strs ["markdown"; "plaintext"]);
      ("parameterInformation", dict [("labelOffsetSupport", JBool true)]);
      ("activeParameterSupport", JBool true)]);
    ("contextSupport", JBool true)].

Definition code_action_capabilities : json :=
  dict [
    ("dynamicRegistration", JBool true);
    ("isPreferredSupport", JBool true);
    ("disabledSupport", JBool true);
    ("dataSupport", JBool true);
    ("codeActionLiteralSupport", dict [
      ("codeActionKind", dict [
        ("valueSet", strs [
          ""; "quickfix"; "refactor"; "refactor.extract"; "refactor.inline";
          "refactor.rewrite"; "source"; "source.organizeImports";
          "source.fixAll"])])]);
    ("resolveSupport", dict [("properties", strs ["edit"])])].

Definition semantic_tokens_capabilities : json :=
  dict [
    ("dynamicRegistration", JBool true);
    ("tokenTypes", strs [
      "namespace"; "type"; "class"; "enum"; "interface"; "struct";
      "typeParameter"; "parameter"; "variable"; "property"; "enumMember";
      "event"; "function"; "method"; "macro"; "keyword"; "modifier";
      "comment"; "string"; "number"; "regexp"; "operator"]);
    ("tokenModifiers", strs [
      "declaration"; "definition"; "readonly"; "static"; "deprecated";
      "abstract"; "async"; "modification"; "documentation"; "defaultLibrary"]);
    ("formats", strs ["relative"]);
    ("requests", dict [
      ("range", JBool true);
      ("full", dict [("delta", JBool true)])])].

Definition text_document_capabilities : json :=
  dict [
    ("synchronization", dict [
      ("dynamicRegistration", JBool true);
      ("willSave", JBool true);
      ("willSaveWaitUntil", JBool true);
      ("didSave", JBool true)]);
    ("completion", completion_capabilities);
    ("hover", dict [
      ("dynamicRegistration", JBool true);
      ("contentFormat", strs ["markdown"; "plaintext"])]);
    ("signatureHelp", signature_help_capabilities);
    ("definition", dict [
      ("dynamicRegistration", JBool true); ("linkSupport", JBool true)]);
    ("references", dynamic_registration);
    ("documentHighlight", dynamic_registration);
    ("documentSymbol", dict [
      ("dynamicRegistration", JBool true);
      ("symbolKind", dict [("valueSet", symbol_kinds)]);
      ("hierarchicalDocumentSymbolSupport", JBool true);
      ("tagSupport", dict [("valueSet", ints [1; 2])])]);
    ("codeAction", code_action_capabilities);
    ("codeLens", dynamic_registration);
    ("formatting", dynamic_registration);
    ("rangeFormatting", dynamic_registration);
    ("onTypeFormatting", dynamic_registration);
    ("rename", dict [
      ("dynamicRegistration", JBool true); ("prepareSupport", JBool true)]);
    ("foldingRange", dict [
      ("dynamicRegistration", JBool true);
      ("rangeLimit", JInt 5000);
      ("lineFoldingOnly", JBool true)]);
    ("selectionRange", dynamic_registration);
    ("publishDiagnostics", dict [
      ("relatedInformation", JBool true);
      ("versionSupport", JBool false);
      ("tagSupport", dict [("valueSet", ints [1; 2])]);
      ("codeDescriptionSupport", JBool true);
      ("dataSupport", JBool true)]);
    ("callHierarchy", dynamic_registration);
    ("semanticTokens", semantic_tokens_capabilities)].

Definition window_capabilities : json :=
  dict [
    ("workDoneProgress", JBool true);
    ("showMessage", dict [
      ("messageActionItem", dict [("additionalPropertiesSupport", JBool true)])]);
    ("showDocument", dict [("support", JBool true)])].

Definition general_capabilities : json :=
  dict [
    ("regularExpressions", dict [("engine", JStr "ECMAScript")]);
    ("markdown", dict [("parser", JStr "marked"); ("version", JStr "1.1.0")])].

(** The entries of the document after ["processId"], given the two
    evaluations of [as_uri]. *)
Definition initialize_entries (repository_absolute_path root_uri folder_uri : string)
    : list (string * json) :=
  [ ("rootPath", JStr repository_absolute_path);
    ("rootUri", JStr root_uri);
    ("initializationOptions", dict [
      ("fallbackBuildSystem", JStr "swiftpm");
      ("backgroundIndexing", JBool true);
      ("completion", dict [
        ("maxResults", JInt 200); ("serverSideFiltering", JBool true)])]);
    ("capabilities", dict [
      ("workspace", workspace_capabilities);
      ("textDocument", text_document_capabilities);
      ("window", window_capabilities);
      ("general", general_capabilities)]);
    ("workspaceFolders", JList [
      dict [("uri", JStr folder_uri);
            ("name", JStr (os_path_basename repository_absolute_path))]]) ].

(** The dictionary display is evaluated entry by entry: the process id,
    then the root URI, then, last, the URI of the workspace folder. *)
Definition _get_initialize_params (repository_absolute_path : string) : outcome json :=
  match path_as_uri repository_absolute_path with
  | Raise e => Raise e
  | Ret root_uri =>
      match path_as_uri repository_absolute_path with
      | Raise e => Raise e
      | Ret folder_uri =>
          Ret (dict (("processId", JInt os_getpid) ::
                     initialize_entries repository_absolute_path root_uri folder_uri))
      end
  end.

End InitializeParams.

(** ** The transport and the reader thread *)

(** A message the server process sends of its own accord. *)
Inductive inbound : Type :=
  | Notification (method : string) (params : json)
  | Request (method : string) (params : json).

(** Appending to the traffic. *)
Definition record_wire (e : wire_event) : M unit :=
  on_server (fun t =>
    {| request_handlers := request_handlers t;
       notification_handlers := notification_handlers t;
       wire := wire t ++ [e] |}).

(** [self.server.on_request(method, h)]. *)
Definition on_request (method : string) (h : handler) : M unit :=
  on_server (fun t =>
    {| request_handlers := <[method := h]> (request_handlers t);
       notification_handlers := notification_handlers t;
       wire := wire t |}).

(** [self.server.on_notification(method, h)]. *)
Definition on_notification (method : string) (h : handler) : M unit :=
  on_server (fun t =>
    {| request_handlers := request_handlers t;
       notification_handlers := <[method := h]> (notification_handlers t);
       wire := wire t |}).

(** [self.server.start()]. *)
Definition server_start : M unit := record_wire Started.

(** The reader thread takes one message off the wire and calls the closure
    registered for its method, if any.  It answers a request with what the
    closure returns, and with an error response when the closure raises or
    the method has no closure; a notification needs no answer.  The
    closure runs on the reader thread: an exception it raises never
    reaches the thread that runs [_start_server], and the fields it wrote
    before raising stay written. *)
Definition deliver (m : inbound) : M unit :=
  match m with
  | Notification method params =>
      record_wire (ReceivedNotification method params) ;;
      table <- get (fun self => notification_handlers (server self)) ;;
      match table !! method with
      | Some h => fun self => (Ret tt, snd (call h params self))
      | None => ret tt
      end
  | Request method params =>
      record_wire (ReceivedRequest method params) ;;
      table <- get (fun self => request_handlers (server self)) ;;
      match table !! method with
      | Some h =>
          fun self =>
            match call h params self with
            | (Ret result, self') => record_wire (SentReply result) self'
            | (Raise _, self') => record_wire SentErrorReply self'
            end
      | None => record_wire SentErrorReply
      end
  end.

Fixpoint deliver_all (ms : list inbound) : M unit :=
  match ms with
  | [] => ret tt
  | m :: rest => deliver m ;; deliver_all rest
  end.

(** What the server process does while [_start_server] runs: the messages
    it sends before it answers the initialize request, its answer, and the
    messages it sends afterwards, before the readiness wait runs out. *)
Record peer : Type := mk_peer {
  early : list inbound;
  init_response : json;
  arrivals : list inbound
}.

(** [self.server.send.initialize(params)]: the request goes out and the
    caller blocks until the response is in; the reader thread serves what
    arrives in between. *)
Definition send_initialize (p : peer) (params : json) : M json :=
  record_wire (SentRequest "initialize" params) ;;
  deliver_all (early p) ;;
  record_wire (ReceivedResponse (init_response p)) ;;
  ret (init_response p).

(** [self.server.notify.initialized(params)]. *)
Definition notify_initialized (params : json) : M unit :=
  record_wire (SentNotification "initialized" params).

(** [self.analysis_complete.wait(timeout=timeout)]: true when the flag is
    set, false when the timeout runs out with the flag still unset.  The
    reader thread goes on serving messages all the while, also after it
    has set the flag: [pending] lists the messages it serves until the
    waiting thread runs again, which is at the latest when the timeout
    runs out.  The clock itself is not modelled. *)
Definition analysis_complete_wait (pending : list inbound) : M bool :=
  deliver_all pending ;;
  get analysis_complete.

(** [assert cond, msg]. *)
Definition py_assert (cond : bool) (msg : string) : M unit :=
  if cond then ret tt else raise (AssertionError msg).

(** The timeout of the readiness wait, in seconds. *)
Definition timeout : Q := (15 # 1)%Q.

(** ** Start-up *)

Section StartServer.

Variable os_getpid : Z.
Variable path_as_uri : string -> outcome string.
Variable os_path_basename : string -> string.

Definition _start_server (p : peer) : M unit :=
  on_request "client/registerCapability" H_do_nothing ;;
  on_notification "window/logMessage" H_window_log_message ;;
  on_notification "window/showMessage" H_window_show_message ;;
  on_request "workspace/executeClientCommand" H_execute_client_command_handler ;;
  on_request "workspace/configuration" H_workspace_configuration_handler ;;
  on_notification "$/progress" H_progress_notification ;;
  on_notification "textDocument/publishDiagnostics" H_do_nothing ;;
  log [Lit "Starting sourcekit-lsp server process"] INFO ;;
  server_start ;;
  root <- get repository_root_path ;;
  initialize_params <-
    eval (_get_initialize_params os_getpid path_as_uri os_path_basename root) ;;
  log [Lit "Sending initialize request from LSP client to SourceKit-LSP server and awaiting response"]
      INFO ;;
  response <- send_initialize p initialize_params ;;
  log [Lit "Received initialize response from SourceKit-LSP server: "; Fmt response]
      INFO ;;
  capabilities <- eval (py_get response "capabilities" (JObj ∅)) ;;
  has_sync <- eval (py_in "textDocumentSync" capabilities) ;;
  py_assert has_sync "SourceKit-LSP must support textDocumentSync" ;;
  has_completion <- eval (py_in "completionProvider" capabilities) ;;
  (if negb has_completion
   then log [Lit "Warning: SourceKit-LSP did not advertise completionProvider capability"]
            WARNING
   else ret tt) ;;
  has_definition <- eval (py_in "definitionProvider" capabilities) ;;
  (if negb has_definition
   then log [Lit "Warning: SourceKit-LSP did not advertise definitionProvider capability"]
            WARNING
   else ret tt) ;;
  notify_initialized (JObj ∅) ;;
  log [Lit "Waiting for SourceKit-LSP to complete initial workspace analysis..."]
      INFO ;;
  signalled <- analysis_complete_wait (arrivals p) ;;
  if signalled : bool then
    log [Lit "SourceKit-LSP initial analysis complete, server ready"] INFO
  else
    log [Lit "Timeout ("; Fmt (JFloat timeout);
         Lit "s) waiting for SourceKit-LSP analysis completion, proceeding anyway"]
        WARNING ;;
    analysis_complete_set ;;
    completions_available_set.

End StartServer.

(** ** What the specification calls a match *)

(** A letter of a keyword and a character of a text that differ in case at
    most. *)
Definition is_lower_letter (k : ascii) : bool :=
  let n := nat_of_ascii k in ((97 <=? n) && (n <=? 122))%nat.

Definition upper_of (k : ascii) : ascii := ascii_of_nat (nat_of_ascii k - 32).

Definition same_letter (k c : ascii) : bool :=
  Ascii.eqb c k || (is_lower_letter k && Ascii.eqb c (upper_of k)).

(** [segment] is [keyword] up to the case of letters: character by
    character the two agree, or the segment has the capital of the
    keyword's letter, or it has the Kelvin sign for the keyword's [k]. *)
Fixpoint matches_ci (keyword segment : string) : bool :=
  match keyword with
  | EmptyString =>
      match segment with EmptyString => true | String _ _ => false end
  | String k keyword' =>
      match segment with
      | EmptyString => false
      | String c segment' =>
          (same_letter k c && matches_ci keyword' segment') ||
          (Ascii.eqb k "k" &&
           match segment' with
           | String c1 (String c2 rest) =>
               utf8_kelvin c c1 c2 && matches_ci keyword' rest
           | _ => false
           end)
      end
  end.

(** [text] contains [keyword] as a case-insensitive substring: some
    contiguous part of [text] is [keyword] up to the case of letters. *)
Definition contains_ci (keyword text : string) : Prop :=
  exists pre segment post : string,
    text = pre +:+ segment +:+ post /\ matches_ci keyword segment = true.

(** The keywords the handlers search for are written in ASCII without
    capitals and do not end in [i]. *)
Definition clean_char (k : ascii) : bool :=
  let n := nat_of_ascii k in ((n <? 128) && negb ((65 <=? n) && (n <=? 90)))%nat.

Fixpoint clean_keyword (keyword : string) : bool :=
  match keyword with
  | EmptyString => true
  | String k keyword' =>
      clean_char k &&
      negb (Ascii.eqb k "i" && match keyword' with EmptyString => true | _ => false end) &&
      clean_keyword keyword'
  end.

(** A text that does not begin in the middle of the two sequences [lower]
    knows. *)
Definition starts_whole (s : string) : Prop :=
  match s with
  | EmptyString => True
  | String c _ => c <> "132"%char /\ c <> "170"%char /\ c <> "176"%char
  end.

(** Two texts that differ in the case of ASCII letters at most: they have
    the same length and, position by position, the same character or the
    two cases of one letter. *)
Definition same_char_ci (a b : ascii) : bool := same_letter a b || same_letter b a.

Fixpoint same_text_ci (s t : string) : bool :=
  match s, t with
  | EmptyString, EmptyString => true
  | String a s', String b t' => same_char_ci a b && same_text_ci s' t'
  | _, _ => false
  end.

(** OR semantics over a keyword list: any one keyword suffices. *)
Definition rule_matches (keywords : list string) (text : string) : Prop :=
  exists keyword : string, keyword ∈ keywords /\ contains_ci keyword text.

(** A notification that matches the keyword rule of the handler it is
    delivered to: a log or show-message notification whose message text
    matches the handler's list, or a progress notification of kind ["end"]
    whose message text matches the progress list. *)
Inductive readiness_match : handler -> json -> Prop :=
  | match_log_message (m : gmap string json) (text : string) :
      m !! "message" = Some (JStr text) ->
      rule_matches
        [ "indexing complete"; "finished indexing"; "build complete";
          "compilation finished"; "swift package resolved" ] text ->
      readiness_match H_window_log_message (JObj m)
  | match_show_message (m : gmap string json) (text : string) :
      m !! "message" = Some (JStr text) ->
      rule_matches
        [ "package resolution complete"; "build succeeded"; "indexing finished" ] text ->
      readiness_match H_window_show_message (JObj m)
  | match_progress (m value : gmap string json) (text : string) :
      m !! "value" = Some (JObj value) ->
      value !! "kind" = Some (JStr "end") ->
      value !! "message" = Some (JStr text) ->
      rule_matches [ "indexing"; "building"; "resolving" ] text ->
      readiness_match H_progress_notification (JObj m).

(** A notification on the wire that matches: its method is one of the
    three that [_start_server] routes to a readiness handler, and its
    parameters match that handler's rule. *)
Inductive inbound_match : inbound -> Prop :=
  | inbound_log_message (params : json) :
      readiness_match H_window_log_message params ->
      inbound_match (Notification "window/logMessage" params)
  | inbound_show_message (params : json) :
      readiness_match H_window_show_message params ->
      inbound_match (Notification "window/showMessage" params)
  | inbound_progress (params : json) :
      readiness_match H_progress_notification params ->
      inbound_match (Notification "$/progress" params).

(** ** Runs *)

(** The three readiness fields together: the analysis event, the
    completions event, and [found_source_files]. *)
Definition flags (self : SwiftLanguageServer) : bool * bool * bool :=
  (analysis_complete self, completions_available self, found_source_files self).

(** The session: every field but the log output. *)
Definition session (self : SwiftLanguageServer) : string * (bool * bool * bool) * transport :=
  (repository_root_path self, flags self, server self).

(** Handlers called one after the other, as the reader thread does. *)
Definition run_calls (calls : list (handler * json)) (self : SwiftLanguageServer)
    : SwiftLanguageServer :=
  fold_left (fun s c => snd (call (fst c) (snd c) s)) calls self.

(** The states an object goes through: fresh from [__init__], then after
    any handler call and any run of [_start_server]. *)
Inductive reachable : SwiftLanguageServer -> Prop :=
  | reachable_init (root : string) (completions : bool) :
      reachable (init root completions)
  | reachable_call (h : handler) (params : json) (self : SwiftLanguageServer) :
      reachable self ->
      reachable (snd (call h params self))
  | reachable_start (pid : Z) (as_uri : string -> outcome string)
      (basename : string -> string) (p : peer) (self : SwiftLanguageServer) :
      reachable self ->
      reachable (snd (_start_server pid as_uri basename p self)).

(** The timeout warning of [_start_server]. *)
Definition timeout_warning : fstring * Z :=
  ([Lit "Timeout ("; Fmt (JFloat timeout);
    Lit "s) waiting for SourceKit-LSP analysis completion, proceeding anyway"],
   WARNING).

(** The message of the failed assertion of [_start_server]. *)
Definition sync_assertion : exn :=
  AssertionError "SourceKit-LSP must support textDocumentSync".

(** A stand-in for [as_uri] and one for [basename], to run the model on
    concrete paths. *)
Definition sample_as_uri (path : string) : outcome string :=
  Ret ("file://" +:+ path).

Definition sample_basename (path : string) : string := path.

(** ** States along a run of [_start_server] *)

(** The tables after the seven registrations. *)
Definition install_request_handlers (t : gmap string handler) : gmap string handler :=
  <["workspace/configuration" := H_workspace_configuration_handler]>
    (<["workspace/executeClientCommand" := H_execute_client_command_handler]>
       (<["client/registerCapability" := H_do_nothing]> t)).

Definition install_notification_handlers (t : gmap string handler) : gmap string handler :=
  <["textDocument/publishDiagnostics" := H_do_nothing]>
    (<["$/progress" := H_progress_notification]>
       (<["window/showMessage" := H_window_show_message]>
          (<["window/logMessage" := H_window_log_message]> t))).

(** The object with one more log record, and with one more wire event. *)
Definition logged (e : fstring * Z) (self : SwiftLanguageServer) : SwiftLanguageServer :=
  with_logger (logger self ++ [e]) self.

Definition wired (e : wire_event) (self : SwiftLanguageServer) : SwiftLanguageServer :=
  with_server
    {| request_handlers := request_handlers (server self);
       notification_handlers := notification_handlers (server self);
       wire := wire (server self) ++ [e] |}
    self.

(** Handlers installed and the transport started. *)
Definition started (self : SwiftLanguageServer) : SwiftLanguageServer :=
  wired Started
    (logged ([Lit "Starting sourcekit-lsp server process"], INFO)
       (with_server
          {| request_handlers := install_request_handlers (request_handlers (server self));
             notification_handlers :=
               install_notification_handlers (notification_handlers (server self));
             wire := wire (server self) |}
          self)).

(** The initialize request sent, the early messages served, the response
    received and logged. *)
Definition handshaken (p : peer) (params : json) (self : SwiftLanguageServer)
    : SwiftLanguageServer :=
  logged ([Lit "Received initialize response from SourceKit-LSP server: ";
           Fmt (init_response p)], INFO)
    (wired (ReceivedResponse (init_response p))
       (snd (deliver_all (early p)
          (wired (SentRequest "initialize" params)
             (logged ([Lit "Sending initialize request from LSP client to SourceKit-LSP server and awaiting response"], INFO)
                (started self)))))).

(** The warning for an optional capability the response lacks. *)
Definition warned (has : bool) (capability : string) (self : SwiftLanguageServer)
    : SwiftLanguageServer :=
  if has then self
  else logged ([Lit ("Warning: SourceKit-LSP did not advertise " +:+ capability +:+ " capability")],
               WARNING) self.

(** The initialized notification sent and the wait announced. *)
Definition awaiting (has_completion has_definition : bool) (self : SwiftLanguageServer)
    : SwiftLanguageServer :=
  logged ([Lit "Waiting for SourceKit-LSP to complete initial workspace analysis..."], INFO)
    (wired (SentNotification "initialized" (JObj ∅))
       (warned has_definition "definitionProvider"
          (warned has_completion "completionProvider" self))).

(** Events that come from serving inbound messages. *)
Definition inbound_traffic (e : wire_event) : bool :=
  match e with
  | ReceivedNotification _ _ | ReceivedRequest _ _ | SentReply _
  | SentErrorReply => true
  | _ => false
  end.

(** The initialize response passes the check of [_start_server]: its
    capabilities contain ["textDocumentSync"]. *)
Definition validated (response : json) : Prop :=
  exists capabilities,
    py_get response "capabilities" (JObj ∅) = Ret capabilities /\
    py_in "textDocumentSync" capabilities = Ret true.

(** [self'] comes from [self] by serving inbound messages: the root path
    and the handler tables stay, the wire and the log only grow, the wire by
    inbound traffic only, and the three readiness fields either stay or
    are all set. *)
Definition served (self self' : SwiftLanguageServer) : Prop :=
  repository_root_path self' = repository_root_path self /\
  request_handlers (server self') = request_handlers (server self) /\
  notification_handlers (server self') = notification_handlers (server self) /\
  (exists events, wire (server self') = (wire (server self) ++ events)%list /\
                  forallb inbound_traffic events = true) /\
  (exists records, logger self' = (logger self ++ records)%list) /\
  (flags self' = flags self \/ flags self' = (true, true, true)).

(** What holds of the readiness fields in every state the object goes
    through: [found_source_files] is set only with the analysis event, and
    the analysis event only with the completions event. *)
Definition latched (self : SwiftLanguageServer) : Prop :=
  (found_source_files self = true -> analysis_complete self = true) /\
  (analysis_complete self = true -> completions_available self = true).

(** The tables as [_start_server] leaves them on a fresh object. *)
Definition routed (s : SwiftLanguageServer) : Prop :=
  request_handlers (server s) = install_request_handlers ∅ /\
  notification_handlers (server s) = install_notification_handlers ∅.

(** The completion keywords as the specification lists them for the log
    channel. *)
Definition spec_log_message_keywords : list string :=
  [ "indexing complete"; "build complete"; "compilation finished";
    "package resolved" ].

(** The initialized notification among the wire events. *)
Definition is_initialized_notification (e : wire_event) : bool :=
  match e with
  | SentNotification method _ => String.eqb method "initialized"
  | _ => false
  end.

(** The log record of the initialize response. *)
Definition response_record (response : json) : fstring * Z :=
  ([Lit "Received initialize response from SourceKit-LSP server: "; Fmt response], INFO).

(** A server that answers the initialize request with the synchronization
    capability and sends nothing that matches a readiness rule. *)
Definition quiet_peer : peer :=
  {| early :=
       [Notification "window/logMessage" (dict [("message", JStr "Indexing started")])];
     init_response := dict [("capabilities", dict [("textDocumentSync", JInt 2)])];
     arrivals :=
       [Request "workspace/configuration" (dict [("items", JList [JNull])]);
        Notification "$/progress"
          (dict [("value", dict [("kind", JStr "begin");
                                 ("message", JStr "Indexing")])])] |}.

(** A server whose initialize response lacks the synchronization
    capability, and which reports a finished build all the same. *)
Definition deficient_peer : peer :=
  {| early := [];
     init_response := dict [("capabilities", dict [("completionProvider", dict [])])];
     arrivals :=
       [Notification "window/logMessage" (dict [("message", JStr "Build complete")])] |}.

(** ** Log records of [_start_server] *)

(** The warnings for the two optional capabilities, and the record of a
    wait that ended with the signal set. *)
Definition completion_warning : fstring * Z :=
  ([Lit "Warning: SourceKit-LSP did not advertise completionProvider capability"],
   WARNING).

Definition definition_warning : fstring * Z :=
  ([Lit "Warning: SourceKit-LSP did not advertise definitionProvider capability"],
   WARNING).

Definition ready_record : fstring * Z :=
  ([Lit "SourceKit-LSP initial analysis complete, server ready"], INFO).

(** The records of a log at level [WARNING]. *)
Definition warnings (records : list (fstring * Z)) : list (fstring * Z) :=
  filter (fun r => snd r = WARNING) records.

(** [self'] has the log of [self] and, after it, records at level [INFO]
    only. *)
Definition info_logged (self self' : SwiftLanguageServer) : Prop :=
  exists records,
    logger self' = (logger self ++ records)%list /\
    Forall (fun r => snd r = INFO) records.

(** A server that answers with the synchronization capability only and
    reports a finished build while the client waits; what it sends after
    that is not served by the wait. *)
Definition building_peer (later : list inbound) : peer :=
  {| early := [];
     init_response := dict [("capabilities", dict [("textDocumentSync", JInt 2)])];
     arrivals :=
       Notification "window/logMessage" (dict [("message", JStr "Build complete")])
       :: later |}.

(** * Properties *)

(** ** Strings *)

Lemma prefix_true_iff (p s : string) :
  String.prefix p s = true <-> exists post, s = p +:+ post.
Proof.
  revert s. induction p as [|c p IH]; intros s.
  - split; [intros _; exists s; reflexivity | intros _; now destruct s].
  - destruct s as [|d s]; simpl.
    + split; [discriminate | intros [post H]; discriminate].
    + destruct (Ascii.ascii_dec c d) as [->|Hne].
      * rewrite IH. split; intros [post H]; exists post.
        -- simpl. now rewrite H.
        -- simpl in H. now injection H.
      * split; [discriminate|]. intros [post H]. simpl in H.
        injection H as H1 H2. congruence.
Qed.

Lemma py_str_in_true_iff (needle hay : string) :
  py_str_in needle hay = true <->
  exists pre post, hay = pre +:+ needle +:+ post.
Proof.
  induction hay as [|c hay IH].
  - cbn [py_str_in]. rewrite orb_false_r, prefix_true_iff. split.
    + intros [post H]. exists "", post. exact H.
    + intros [pre [post H]]. destruct pre; [exists post; exact H | discriminate].
  - cbn [py_str_in]. rewrite orb_true_iff, IH, prefix_true_iff. split.
    + intros [[post H] | [pre [post H]]].
      * exists "", post. exact H.
      * exists (String c pre), post. simpl. now rewrite H.
    + intros [pre [post H]]. destruct pre as [|d pre].
      * left. exists post. exact H.
      * right. simpl in H. injection H as _ H. exists pre, post. exact H.
Qed.

Lemma append_cons (c : ascii) (a b : string) : String c a +:+ b = String c (a +:+ b).
Proof. reflexivity. Qed.

Lemma append_nil_l (b : string) : "" +:+ b = b.
Proof. reflexivity. Qed.

Lemma string_app_assoc (a b c : string) : (a +:+ b) +:+ c = a +:+ (b +:+ c).
Proof.
  induction a as [|x a IH]; [reflexivity|].
  rewrite !append_cons. now rewrite IH.
Qed.

(** *** The equations of [lower] *)

Lemma lower_kelvin (rest : string) :
  lower (String "226" (String "132" (String "170" rest))) = String "k" (lower rest).
Proof. reflexivity. Qed.

Lemma lower_dotted_I (rest : string) :
  lower (String "196" (String "176" rest)) =
  String "i" (String "204" (String "135" (lower rest))).
Proof. reflexivity. Qed.

Lemma utf8_kelvin_true (c c1 c2 : ascii) :
  utf8_kelvin c c1 c2 = true -> c = "226"%char /\ c1 = "132"%char /\ c2 = "170"%char.
Proof.
  unfold utf8_kelvin. rewrite !andb_true_iff, !Ascii.eqb_eq. tauto.
Qed.

Lemma utf8_dotted_I_true (c c1 : ascii) :
  utf8_dotted_I c c1 = true -> c = "196"%char /\ c1 = "176"%char.
Proof. unfold utf8_dotted_I. rewrite !andb_true_iff, !Ascii.eqb_eq. tauto. Qed.

(** A text starts with the Kelvin sign, with the dotted capital I, or
    with a character that is lowered by itself. *)
Lemma lower_cases (c : ascii) (text : string) :
  (exists rest, c = "226"%char /\ text = String "132" (String "170" rest)) \/
  (exists rest, c = "196"%char /\ text = String "176" rest) \/
  lower (String c text) = String (ascii_lower c) (lower text).
Proof.
  destruct text as [|c1 rest1]; [right; right; reflexivity|].
  destruct (utf8_dotted_I c c1) eqn:Hd.
  - apply utf8_dotted_I_true in Hd as [-> ->]. right. left. eauto.
  - destruct rest1 as [|c2 rest2].
    + right. right. cbn [lower]. now rewrite Hd.
    + destruct (utf8_kelvin c c1 c2) eqn:Hk.
      * apply utf8_kelvin_true in Hk as (-> & -> & ->). left. eauto.
      * right. right. cbn [lower]. rewrite Hd, Hk. reflexivity.
Qed.

Lemma lower_plain (c : ascii) (rest : string) :
  c <> "226"%char -> c <> "196"%char ->
  lower (String c rest) = String (ascii_lower c) (lower rest).
Proof.
  intros H1 H2. destruct rest as [|c1 rest1]; [reflexivity|].
  cbn [lower].
  destruct (utf8_dotted_I c c1) eqn:Hd;
    [apply utf8_dotted_I_true in Hd as [-> _]; contradiction|].
  destruct rest1 as [|c2 rest2]; [reflexivity|].
  destruct (utf8_kelvin c c1 c2) eqn:Hk;
    [apply utf8_kelvin_true in Hk as (-> & _); contradiction|].
  reflexivity.
Qed.

(** *** Characters *)

Lemma same_letter_of_lower (k c : ascii) :
  clean_char k = true -> ascii_lower c = k -> same_letter k c = true.
Proof.
  intros Hk <-. revert Hk.
  destruct c as [[] [] [] [] [] [] [] []]; vm_compute; intros H;
    first [reflexivity | discriminate H].
Qed.

Lemma lower_of_same_letter (k c : ascii) :
  clean_char k = true -> same_letter k c = true ->
  ascii_lower c = k /\ c <> "226"%char /\ c <> "196"%char.
Proof.
  unfold same_letter. intros Hk H.
  apply orb_true_iff in H as [H|H].
  - apply Ascii.eqb_eq in H as ->. revert Hk.
    destruct k as [[] [] [] [] [] [] [] []]; vm_compute; intros H;
      first [discriminate H | repeat split; discriminate].
  - apply andb_true_iff in H as [Hl H]. apply Ascii.eqb_eq in H as ->. revert Hk Hl.
    destruct k as [[] [] [] [] [] [] [] []]; vm_compute; intros H1 H2;
      first [discriminate H1 | discriminate H2 | repeat split; discriminate].
Qed.

(** [lower] does not tell apart two texts that differ in the case of
    ASCII letters only. *)
Lemma same_char_ci_cases (a b : ascii) :
  same_char_ci a b = true ->
  a = b \/ (is_lower_letter a = true /\ b = upper_of a) \/
  (is_lower_letter b = true /\ a = upper_of b).
Proof.
  unfold same_char_ci, same_letter.
  rewrite !orb_true_iff, !andb_true_iff, !Ascii.eqb_eq. intuition auto.
Qed.

Lemma upper_of_lower (a : ascii) :
  is_lower_letter a = true ->
  ascii_lower (upper_of a) = ascii_lower a /\
  (128 <=? nat_of_ascii a)%nat = false /\
  (128 <=? nat_of_ascii (upper_of a))%nat = false.
Proof.
  destruct a as [[] [] [] [] [] [] [] []]; vm_compute; intros H;
    first [discriminate H | repeat split].
Qed.

Lemma same_char_ci_lower (a b : ascii) :
  same_char_ci a b = true ->
  ascii_lower a = ascii_lower b /\
  ((128 <=? nat_of_ascii a)%nat = true -> a = b) /\
  ((128 <=? nat_of_ascii b)%nat = true -> a = b).
Proof.
  intros H. apply same_char_ci_cases in H as [->|[[Hl ->]|[Hl ->]]].
  - auto.
  - destruct (upper_of_lower a Hl) as (H1 & H2 & H3). rewrite H1, H2, H3.
    repeat split; discriminate.
  - destruct (upper_of_lower b Hl) as (H1 & H2 & H3). rewrite H1, H2, H3.
    repeat split; discriminate.
Qed.

Lemma same_text_ci_lower_bounded (n : nat) :
  forall s t : string,
    (String.length s <= n)%nat -> same_text_ci s t = true -> lower s = lower t.
Proof.
  induction n as [n IH] using lt_wf_ind. intros s t Hn H.
  destruct s as [|c s], t as [|d t]; try discriminate H; [reflexivity|].
  cbn [same_text_ci] in H. apply andb_true_iff in H as [Hc H].
  destruct (same_char_ci_lower c d Hc) as (Hl & Hcd & Hdc).
  assert (Hrec : lower s = lower t).
  { apply (IH (String.length s)); [cbn in Hn; lia|lia|exact H]. }
  destruct (lower_cases c s) as [[rest [-> ->]]|[[rest [-> ->]]|Hs]].
  - rewrite <- (Hcd eq_refl).
    destruct t as [|d1 [|d2 rest']]; cbn [same_text_ci] in H;
      rewrite ?andb_false_r in H; try discriminate H.
    apply andb_true_iff in H as [H1 H]. apply andb_true_iff in H as [H2 H].
    apply same_char_ci_lower in H1 as (_ & H1 & _).
    apply same_char_ci_lower in H2 as (_ & H2 & _).
    rewrite <- (H1 eq_refl), <- (H2 eq_refl), !lower_kelvin. f_equal.
    apply (IH (String.length rest)); [cbn in Hn; lia|lia|exact H].
  - rewrite <- (Hcd eq_refl).
    destruct t as [|d1 rest']; try discriminate H.
    cbn [same_text_ci] in H. apply andb_true_iff in H as [H1 H].
    apply same_char_ci_lower in H1 as (_ & H1 & _).
    rewrite <- (H1 eq_refl), !lower_dotted_I. do 3 f_equal.
    apply (IH (String.length rest)); [cbn in Hn; lia|lia|exact H].
  - destruct (lower_cases d t) as [[rest [-> ->]]|[[rest [-> ->]]|Ht]].
    + rewrite (Hdc eq_refl) in *.
      destruct s as [|c1 [|c2 rest']]; cbn [same_text_ci] in H;
        rewrite ?andb_false_r in H; try discriminate H.
      apply andb_true_iff in H as [H1 H]. apply andb_true_iff in H as [H2 H].
      apply same_char_ci_lower in H1 as (_ & _ & H1).
      apply same_char_ci_lower in H2 as (_ & _ & H2).
      rewrite (H1 eq_refl), (H2 eq_refl), !lower_kelvin. f_equal.
      apply (IH (String.length rest')); [cbn in Hn; lia|lia|exact H].
    + rewrite (Hdc eq_refl) in *.
      destruct s as [|c1 rest']; try discriminate H.
      cbn [same_text_ci] in H. apply andb_true_iff in H as [H1 H].
      apply same_char_ci_lower in H1 as (_ & _ & H1).
      rewrite (H1 eq_refl), !lower_dotted_I. do 3 f_equal.
      apply (IH (String.length rest')); [cbn in Hn; lia|lia|exact H].
    + rewrite Hs, Ht, Hl, Hrec. reflexivity.
Qed.

Lemma same_text_ci_lower (s t : string) :
  same_text_ci s t = true -> lower s = lower t.
Proof. exact (same_text_ci_lower_bounded (String.length s) s t (le_n _)). Qed.

Lemma clean_char_not_high (k : ascii) :
  clean_char k = true ->
  k <> "204"%char /\ k <> "135"%char /\ k <> "132"%char /\ k <> "170"%char /\
  k <> "176"%char.
Proof.
  destruct k as [[] [] [] [] [] [] [] []]; vm_compute; intros H;
    first [discriminate H | repeat split; discriminate].
Qed.

(** *** A keyword at the head of the lowered text *)

Lemma matches_ci_of_prefix (keyword : string) :
  clean_keyword keyword = true ->
  forall text rest : string,
    lower text = keyword +:+ rest ->
    exists segment post, text = segment +:+ post /\ matches_ci keyword segment = true.
Proof.
  induction keyword as [|k keyword IH]; intros Hclean text rest Hl.
  - exists "", text. split; reflexivity.
  - cbn [clean_keyword] in Hclean.
    apply andb_true_iff in Hclean as [Hclean Hkw].
    apply andb_true_iff in Hclean as [Hk Hlast].
    rewrite append_cons in Hl.
    destruct text as [|c text]; [discriminate Hl|].
    destruct (lower_cases c text) as [(text' & -> & ->)|[(text' & -> & ->)|Heq]].
    + rewrite lower_kelvin in Hl. injection Hl as <- Hl.
      destruct (IH Hkw text' rest Hl) as (segment & post & -> & Hm).
      exists (String "226" (String "132" (String "170" segment))), post.
      split; [reflexivity|]. cbn [matches_ci]. rewrite Hm.
      cbn. now rewrite orb_true_r.
    + rewrite lower_dotted_I in Hl. injection Hl as <- Hl. exfalso.
      destruct keyword as [|k' keyword'].
      * cbn in Hlast. discriminate Hlast.
      * rewrite append_cons in Hl. injection Hl as <- _.
        cbn [clean_keyword] in Hkw. 
        apply andb_true_iff in Hkw as [Hkw _].
        apply andb_true_iff in Hkw as [Hkw _].
        vm_compute in Hkw. discriminate Hkw.
    + rewrite Heq in Hl. injection Hl as Hc Hl.
      destruct (IH Hkw text rest Hl) as (segment & post & -> & Hm).
      exists (String c segment), post. split; [reflexivity|].
      cbn [matches_ci]. rewrite Hm, (same_letter_of_lower k c Hk Hc). reflexivity.
Qed.

(** *** A keyword anywhere in the lowered text *)

Lemma contains_ci_cons (keyword : string) (c : ascii) (text : string) :
  contains_ci keyword text -> contains_ci keyword (String c text).
Proof.
  intros (pre & segment & post & -> & Hm).
  exists (String c pre), segment, post. split; [reflexivity | exact Hm].
Qed.

Lemma contains_ci_of_lower (keyword : string) :
  keyword <> "" -> clean_keyword keyword = true ->
  forall (n : nat) (text before after : string),
    (String.length text <= n)%nat ->
    lower text = before +:+ keyword +:+ after ->
    contains_ci keyword text.
Proof.
  intros Hne Hclean.
  assert (forall text after, lower text = keyword +:+ after -> contains_ci keyword text)
    as Hhead.
  { intros text after Hl.
    destruct (matches_ci_of_prefix keyword Hclean text after Hl)
      as (segment & post & -> & Hm).
    exists "", segment, post. split; [reflexivity | exact Hm]. }
  assert (exists k keyword', keyword = String k keyword' /\ clean_char k = true)
    as (k & keyword' & Hkw & Hk).
  { destruct keyword as [|k keyword']; [contradiction|].
    exists k, keyword'. split; [reflexivity|]. cbn [clean_keyword] in Hclean.
    apply andb_true_iff in Hclean as [Hclean _].
    now apply andb_true_iff in Hclean as [Hclean _]. }
  destruct (clean_char_not_high k Hk) as (H204 & H135 & _).
  induction n as [|n IH]; intros text before after Hlen Hl.
  - destruct text; [|cbn in Hlen; lia].
    destruct before; [now apply (Hhead "" after)|discriminate Hl].
  - destruct before as [|b before]; [now apply (Hhead text after)|].
    rewrite append_cons in Hl.
    destruct text as [|c text]; [discriminate Hl|]. cbn [String.length] in Hlen.
    destruct (lower_cases c text) as [(text' & -> & ->)|[(text' & -> & ->)|Heq]].
    + rewrite lower_kelvin in Hl. injection Hl as _ Hl.
      do 3 apply contains_ci_cons. apply (IH text' before after); [cbn [String.length] in Hlen; lia|exact Hl].
    + rewrite lower_dotted_I in Hl. injection Hl as _ Hl.
      do 2 apply contains_ci_cons.
      destruct before as [|b1 before].
      { exfalso. rewrite append_nil_l, Hkw, append_cons in Hl. injection Hl as Hl _.
        now apply H204. }
      rewrite append_cons in Hl. injection Hl as _ Hl.
      destruct before as [|b2 before].
      { exfalso. rewrite append_nil_l, Hkw, append_cons in Hl. injection Hl as Hl _.
        now apply H135. }
      rewrite append_cons in Hl. injection Hl as _ Hl.
      apply (IH text' before after); [cbn [String.length] in Hlen; lia|exact Hl].
    + rewrite Heq in Hl. injection Hl as _ Hl.
      apply contains_ci_cons. apply (IH text before after); [lia|exact Hl].
Qed.

(** *** A matching segment in the text *)

Lemma lower_app_whole (n : nat) :
  forall pre s : string,
    (String.length pre <= n)%nat -> starts_whole s ->
    exists lowered, lower (pre +:+ s) = lowered +:+ lower s.
Proof.
  induction n as [|n IH]; intros pre s Hlen Hs.
  - destruct pre; [|cbn [String.length] in Hlen; lia]. exists "". reflexivity.
  - destruct pre as [|c pre]; [exists ""; reflexivity|].
    cbn [String.length] in Hlen. rewrite append_cons.
    destruct (lower_cases c (pre +:+ s)) as [(rest & -> & Hr)|[(rest & -> & Hr)|Heq]].
    + destruct pre as [|c1 pre].
      { exfalso. rewrite append_nil_l in Hr. subst s. cbn in Hs. tauto. }
      rewrite append_cons in Hr. injection Hr as -> Hr.
      destruct pre as [|c2 pre].
      { exfalso. rewrite append_nil_l in Hr. subst s. cbn in Hs. tauto. }
      rewrite append_cons in Hr. injection Hr as -> <-.
      rewrite !append_cons, lower_kelvin.
      destruct (IH pre s) as (lowered & ->); [cbn [String.length] in Hlen; lia|exact Hs|].
      exists (String "k" lowered). reflexivity.
    + destruct pre as [|c1 pre].
      { exfalso. rewrite append_nil_l in Hr. subst s. cbn in Hs. tauto. }
      rewrite append_cons in Hr. injection Hr as -> <-.
      rewrite !append_cons, lower_dotted_I.
      destruct (IH pre s) as (lowered & ->); [cbn [String.length] in Hlen; lia|exact Hs|].
      exists (String "i" (String "204" (String "135" lowered))). reflexivity.
    + rewrite Heq.
      destruct (IH pre s) as (lowered & ->); [lia|exact Hs|].
      exists (String (ascii_lower c) lowered). reflexivity.
Qed.

Lemma lower_of_matches_ci (keyword : string) :
  clean_keyword keyword = true ->
  forall segment post : string,
    matches_ci keyword segment = true ->
    lower (segment +:+ post) = keyword +:+ lower post.
Proof.
  induction keyword as [|k keyword IH]; intros Hclean segment post Hm.
  - destruct segment; [reflexivity | discriminate Hm].
  - cbn [clean_keyword] in Hclean.
    apply andb_true_iff in Hclean as [Hclean Hkw].
    apply andb_true_iff in Hclean as [Hk _].
    destruct segment as [|c segment]; [discriminate Hm|].
    cbn [matches_ci] in Hm. apply orb_true_iff in Hm as [Hm|Hm].
    + apply andb_true_iff in Hm as [Hc Hm].
      destruct (lower_of_same_letter k c Hk Hc) as (Hl & H226 & H196).
      rewrite !append_cons, (lower_plain c _ H226 H196), Hl. f_equal.
      now apply IH.
    + apply andb_true_iff in Hm as [Hkk Hm]. apply Ascii.eqb_eq in Hkk as ->.
      destruct segment as [|c1 [|c2 rest]]; try discriminate Hm.
      apply andb_true_iff in Hm as [Hkelvin Hm].
      apply utf8_kelvin_true in Hkelvin as (-> & -> & ->).
      rewrite !append_cons, lower_kelvin. f_equal. now apply IH.
Qed.

Lemma matches_ci_starts_whole (keyword segment post : string) :
  keyword <> "" -> clean_keyword keyword = true ->
  matches_ci keyword segment = true -> starts_whole (segment +:+ post).
Proof.
  intros Hne Hclean Hm. destruct keyword as [|k keyword]; [contradiction|].
  cbn [clean_keyword] in Hclean.
  apply andb_true_iff in Hclean as [Hclean _].
  apply andb_true_iff in Hclean as [Hk _].
  destruct segment as [|c segment]; [discriminate Hm|].
  cbn [matches_ci] in Hm. rewrite append_cons. cbn [starts_whole].
  apply orb_true_iff in Hm as [Hm|Hm].
  - apply andb_true_iff in Hm as [Hc _].
    destruct (lower_of_same_letter k c Hk Hc) as (Hl & _).
    destruct (clean_char_not_high k Hk) as (_ & _ & H132 & H170 & H176).
    repeat split; intros ->; vm_compute in Hl; subst k; contradiction.
  - apply andb_true_iff in Hm as [_ Hm].
    destruct segment as [|c1 [|c2 rest]]; try discriminate Hm.
    apply andb_true_iff in Hm as [Hkelvin _].
    apply utf8_kelvin_true in Hkelvin as (-> & _). repeat split; discriminate.
Qed.

(** The test the handlers run is the specification's case-insensitive
    containment, for a keyword written as the handlers' keywords are. *)
Lemma py_str_in_lower_iff (keyword text : string) :
  keyword <> "" -> clean_keyword keyword = true ->
  py_str_in keyword (lower text) = true <-> contains_ci keyword text.
Proof.
  intros Hne Hclean. rewrite py_str_in_true_iff. split.
  - intros (before & after & H).
    exact (contains_ci_of_lower keyword Hne Hclean (String.length text) text before after
             (le_n _) H).
  - intros (pre & segment & post & -> & Hm).
    destruct (lower_app_whole (String.length pre) pre (segment +:+ post) (le_n _)
                (matches_ci_starts_whole _ _ post Hne Hclean Hm)) as (lowered & ->).
    rewrite (lower_of_matches_ci keyword Hclean segment post Hm).
    exists lowered, (lower post). reflexivity.
Qed.

Lemma py_any_keyword_in_lower_str (keywords : list string) (text : string) :
  py_any_keyword_in_lower keywords (JStr text) = Ret (any_keyword_in_lower keywords text).
Proof.
  unfold any_keyword_in_lower.
  induction keywords as [|k ks IH]; simpl; [reflexivity|].
  destruct (py_str_in k (lower text)); [reflexivity | exact IH].
Qed.

Lemma any_keyword_in_lower_iff (keywords : list string) (text : string) :
  Forall (fun k => k <> "" /\ clean_keyword k = true) keywords ->
  any_keyword_in_lower keywords text = true <-> rule_matches keywords text.
Proof.
  intros Hl. unfold any_keyword_in_lower, rule_matches.
  rewrite existsb_exists. rewrite Forall_forall in Hl. split.
  - intros (k & Hin & Hk). exists k. split; [now apply list_elem_of_In|].
    destruct (Hl k (proj2 (list_elem_of_In _ _) Hin)) as [Hne Hc].
    now apply py_str_in_lower_iff.
  - intros (k & Hin & Hk). exists k. split; [now apply list_elem_of_In|].
    destruct (Hl k Hin) as [Hne Hc]. now apply py_str_in_lower_iff.
Qed.

Lemma log_message_keywords_lower :
  Forall (fun k => k <> "" /\ clean_keyword k = true) log_message_keywords.
Proof. repeat constructor; discriminate. Qed.

Lemma show_message_keywords_lower :
  Forall (fun k => k <> "" /\ clean_keyword k = true) show_message_keywords.
Proof. repeat constructor; discriminate. Qed.

Lemma progress_keywords_lower :
  Forall (fun k => k <> "" /\ clean_keyword k = true) progress_keywords.
Proof. repeat constructor; discriminate. Qed.

(** ** The handlers, case by case *)

Lemma py_eq_str_true (v : json) (s : string) :
  py_eq_str v s = true <-> v = JStr s.
Proof.
  destruct v; simpl; try (split; [discriminate|intros [=]]).
  rewrite String.eqb_eq. split; [now intros -> | now intros [= ->]].
Qed.

Ltac run_handler :=
  unfold call, window_log_message, window_show_message, progress_notification,
    workspace_configuration_handler, execute_client_command_handler, do_nothing,
    bind, eval, ret, raise, get, log, set_found_source_files,
    analysis_complete_set, completions_available_set, flags;
  cbn -[py_any_keyword_in_lower py_eq_str].

(** The fields a handler call leaves alone, and the log only grows. *)
Lemma call_frame (h : handler) (params : json) (self : SwiftLanguageServer) :
  repository_root_path (snd (call h params self)) = repository_root_path self /\
  server (snd (call h params self)) = server self /\
  exists l, logger (snd (call h params self)) = (logger self ++ l)%list.
Proof.
  destruct h; run_handler;
    repeat match goal with
    | |- context [match ?x with _ => _ end] => destruct x eqn:?; cbn
    end;
    (split; [reflexivity | split; [reflexivity|]]);
    rewrite <- ?app_assoc; eauto using app_nil_r.
Qed.

Lemma rule_matches_of_any (keywords : list string) (text : string) :
  Forall (fun k => k <> "" /\ clean_keyword k = true) keywords ->
  py_any_keyword_in_lower keywords (JStr text) = Ret true ->
  rule_matches keywords text.
Proof.
  intros Hl. rewrite py_any_keyword_in_lower_str. intros [= H].
  now apply any_keyword_in_lower_iff.
Qed.

Lemma any_of_rule_matches (keywords : list string) (text : string) :
  Forall (fun k => k <> "" /\ clean_keyword k = true) keywords ->
  rule_matches keywords text ->
  py_any_keyword_in_lower keywords (JStr text) = Ret true.
Proof.
  intros Hl H. rewrite py_any_keyword_in_lower_str. f_equal.
  now apply any_keyword_in_lower_iff.
Qed.

(** A handler call either leaves the three readiness fields as they are,
    or its notification matches and it sets all three. *)
Lemma call_cases (h : handler) (params : json) (self : SwiftLanguageServer) :
  flags (snd (call h params self)) = flags self \/
  (readiness_match h params /\
   flags (snd (call h params self)) = (true, true, true)).
Proof.
  destruct h; try (left; reflexivity).
  - destruct params as [| | | | | |m]; try (left; reflexivity).
    run_handler.
    destruct (m !! "message") as [[| | | |text| |]|] eqn:Hm; try (left; reflexivity).
    destruct (py_any_keyword_in_lower _ _) as [[]|] eqn:Hk; try (left; reflexivity).
    right. split; [|reflexivity].
    eapply match_log_message; [exact Hm|].
    exact (rule_matches_of_any _ _ log_message_keywords_lower Hk).
  - destruct params as [| | | | | |m]; try (left; reflexivity).
    run_handler.
    destruct (m !! "message") as [[| | | |text| |]|] eqn:Hm; try (left; reflexivity).
    destruct (py_any_keyword_in_lower _ _) as [[]|] eqn:Hk; try (left; reflexivity).
    cbn. destruct (found_source_files self) eqn:Hf; cbn; [left; now rewrite Hf|].
    right. split; [|reflexivity].
    eapply match_show_message; [exact Hm|].
    exact (rule_matches_of_any _ _ show_message_keywords_lower Hk).
  - destruct params as [| | | | | |m]; try (left; reflexivity).
    run_handler.
    destruct (m !! "value") as [[| | | | | |value]|] eqn:Hv; try (left; reflexivity).
    cbn -[py_any_keyword_in_lower py_eq_str].
    destruct (value !! "kind") as [kind|] eqn:Hkind; [|left; reflexivity].
    destruct (py_eq_str kind "end") eqn:Hend; [|left; reflexivity].
    apply py_eq_str_true in Hend. subst kind.
    destruct (value !! "message") as [[| | | |text| |]|] eqn:Hm; try (left; reflexivity).
    destruct (py_any_keyword_in_lower _ _) as [[]|] eqn:Hk; try (left; reflexivity).
    cbn. destruct (found_source_files self) eqn:Hf; cbn; [left; now rewrite Hf|].
    right. split; [|reflexivity].
    eapply match_progress; [exact Hv|exact Hkind|exact Hm|].
    exact (rule_matches_of_any _ _ progress_keywords_lower Hk).
  - left. run_handler.
    repeat match goal with
    | |- context [match ?x with _ => _ end] => destruct x eqn:?; cbn
    end; reflexivity.
Qed.

(** A matching notification sets the three fields; the show-message and
    progress handlers do so while [found_source_files] is still false. *)
Lemma call_fires (h : handler) (params : json) (self : SwiftLanguageServer) :
  readiness_match h params ->
  h = H_window_log_message \/ found_source_files self = false ->
  flags (snd (call h params self)) = (true, true, true).
Proof.
  intros Hmatch Hguard.
  destruct Hmatch as [m text Hm Hr|m text Hm Hr|m value text Hv Hkind Hm Hr].
  - run_handler. rewrite Hm.
    now rewrite (any_of_rule_matches _ _ log_message_keywords_lower Hr).
  - destruct Hguard as [|Hf]; [discriminate|].
    run_handler. rewrite Hm.
    rewrite (any_of_rule_matches _ _ show_message_keywords_lower Hr).
    cbn. now rewrite Hf.
  - destruct Hguard as [|Hf]; [discriminate|].
    run_handler. rewrite Hv. cbn -[py_any_keyword_in_lower]. rewrite Hkind, Hm.
    cbn -[py_any_keyword_in_lower].
    rewrite (any_of_rule_matches _ _ progress_keywords_lower Hr).
    cbn. now rewrite Hf.
Qed.

(** ** Running [_start_server] *)

Lemma bind_ret_step {A B} (m : M A) (k : A -> M B) (s s' : SwiftLanguageServer) (a : A) :
  m s = (Ret a, s') -> bind m k s = k a s'.
Proof. unfold bind. now intros ->. Qed.

Lemma deliver_ret (m : inbound) (self : SwiftLanguageServer) :
  deliver m self = (Ret tt, snd (deliver m self)).
Proof.
  destruct m as [method params|method params]; unfold deliver;
    (erewrite bind_ret_step by reflexivity);
    (erewrite bind_ret_step by reflexivity).
  - destruct (_ !! method); reflexivity.
  - destruct (_ !! method) as [h|]; [|reflexivity].
    destruct (call h params _) as [[result|e] s']; reflexivity.
Qed.

Lemma deliver_all_ret (ms : list inbound) (self : SwiftLanguageServer) :
  deliver_all ms self = (Ret tt, snd (deliver_all ms self)).
Proof.
  revert self. induction ms as [|m ms IH]; intros self; [reflexivity|].
  cbn [deliver_all]. erewrite bind_ret_step by apply deliver_ret. apply IH.
Qed.

Lemma send_initialize_run (p : peer) (params : json) (self : SwiftLanguageServer) :
  send_initialize p params self =
  (Ret (init_response p),
   wired (ReceivedResponse (init_response p))
     (snd (deliver_all (early p) (wired (SentRequest "initialize" params) self)))).
Proof.
  unfold send_initialize.
  erewrite bind_ret_step by reflexivity.
  erewrite bind_ret_step by apply deliver_all_ret.
  erewrite bind_ret_step by reflexivity.
  reflexivity.
Qed.

Lemma analysis_complete_wait_run (pending : list inbound) (self : SwiftLanguageServer) :
  analysis_complete_wait pending self =
  (Ret (analysis_complete (snd (deliver_all pending self))),
   snd (deliver_all pending self)).
Proof.
  unfold analysis_complete_wait.
  erewrite bind_ret_step by apply deliver_all_ret. reflexivity.
Qed.

Lemma analysis_complete_wait_ret (pending : list inbound) (self : SwiftLanguageServer) :
  analysis_complete_wait pending self =
  (Ret (analysis_complete (snd (analysis_complete_wait pending self))),
   snd (analysis_complete_wait pending self)).
Proof. now rewrite !analysis_complete_wait_run. Qed.

Ltac tidy :=
  cbn [with_server with_logger with_analysis_complete with_completions_available
       with_found_source_files server logger repository_root_path analysis_complete
       completions_available found_source_files request_handlers
       notification_handlers wire].

Ltac step :=
  erewrite bind_ret_step;
  [|unfold on_request, on_notification, server_start, notify_initialized,
      record_wire, on_server, log, get, eval, ret, py_assert,
      analysis_complete_set, completions_available_set;
    tidy; reflexivity].

Ltac branch := unfold bind at 1, eval at 1.

Section StartServerRun.

Variable os_getpid : Z.
Variable path_as_uri : string -> outcome string.
Variable os_path_basename : string -> string.

(** [_start_server] in direct style: where it stops and in which state. *)
Lemma start_server_run (p : peer) (self : SwiftLanguageServer) :
  _start_server os_getpid path_as_uri os_path_basename p self =
  match _get_initialize_params os_getpid path_as_uri os_path_basename
          (repository_root_path self) with
  | Raise e => (Raise e, started self)
  | Ret params =>
      let s2 := handshaken p params self in
      match py_get (init_response p) "capabilities" (JObj ∅) with
      | Raise e => (Raise e, s2)
      | Ret capabilities =>
          match py_in "textDocumentSync" capabilities with
          | Raise e => (Raise e, s2)
          | Ret false => (Raise sync_assertion, s2)
          | Ret true =>
              match py_in "completionProvider" capabilities with
              | Raise e => (Raise e, s2)
              | Ret has_completion =>
                  match py_in "definitionProvider" capabilities with
                  | Raise e => (Raise e, warned has_completion "completionProvider" s2)
                  | Ret has_definition =>
                      let s4 := snd (analysis_complete_wait (arrivals p)
                                       (awaiting has_completion has_definition s2)) in
                      if analysis_complete s4 then
                        (Ret tt,
                         logged ([Lit "SourceKit-LSP initial analysis complete, server ready"],
                                 INFO) s4)
                      else
                        (Ret tt,
                         with_completions_available true
                           (with_analysis_complete true (logged timeout_warning s4)))
                  end
              end
          end
      end
  end.
Proof.
  unfold _start_server.
  do 10 step.
  match goal with |- context [bind ?m ?k ?s] => change s with (started self) end.
  branch.
  destruct (_get_initialize_params _ _ _ _) as [params|e]; [|reflexivity].
  step.
  erewrite bind_ret_step by apply send_initialize_run.
  step.
  match goal with |- context [bind ?m ?k ?s] => change s with (handshaken p params self) end.
  cbn zeta. generalize (handshaken p params self). intros s2.
  branch. destruct (py_get _ _ _) as [capabilities|e]; [|reflexivity].
  branch. destruct (py_in "textDocumentSync" _) as [[]|e]; [|reflexivity|reflexivity].
  step.
  branch. destruct (py_in "completionProvider" _) as [has_completion|e]; [|reflexivity].
  erewrite (bind_ret_step _ _ _ (warned has_completion "completionProvider" s2))
    by (destruct has_completion; reflexivity).
  branch. destruct (py_in "definitionProvider" _) as [has_definition|e]; [|reflexivity].
  erewrite (bind_ret_step _ _ _
              (warned has_definition "definitionProvider"
                 (warned has_completion "completionProvider" s2)))
    by (destruct has_definition; reflexivity).
  do 2 step.
  match goal with |- context [bind ?m ?k ?s] =>
    change s with (awaiting has_completion has_definition s2) end.
  erewrite bind_ret_step by apply analysis_complete_wait_ret.
  destruct (analysis_complete _); [reflexivity|].
  do 2 step. reflexivity.
Qed.

End StartServerRun.
(** ** Serving inbound messages *)

Lemma served_refl (s : SwiftLanguageServer) : served s s.
Proof.
  unfold served. repeat split; auto.
  - exists []. now rewrite app_nil_r.
  - exists []. now rewrite app_nil_r.
Qed.

Lemma served_trans (s1 s2 s3 : SwiftLanguageServer) :
  served s1 s2 -> served s2 s3 -> served s1 s3.
Proof.
  intros (Hr1 & Hq1 & Hn1 & (ev1 & Hw1 & Hf1) & (l1 & Hl1) & Hfl1)
         (Hr2 & Hq2 & Hn2 & (ev2 & Hw2 & Hf2) & (l2 & Hl2) & Hfl2).
  unfold served. repeat split; try congruence.
  - exists (ev1 ++ ev2)%list. split.
    + rewrite Hw2, Hw1. now rewrite app_assoc.
    + rewrite forallb_app, Hf1, Hf2. reflexivity.
  - exists (l1 ++ l2)%list. rewrite Hl2, Hl1. now rewrite app_assoc.
  - destruct Hfl2 as [->| ->]; auto.
Qed.

Lemma call_served (h : handler) (params : json) (s : SwiftLanguageServer) :
  served s (snd (call h params s)).
Proof.
  destruct (call_frame h params s) as (Hr & Hs & l & Hl).
  unfold served. rewrite Hs. repeat split; auto.
  - exists []. now rewrite app_nil_r.
  - eauto.
  - destruct (call_cases h params s) as [H|[_ H]]; auto.
Qed.

Lemma wired_served (e : wire_event) (s : SwiftLanguageServer) :
  inbound_traffic e = true -> served s (wired e s).
Proof.
  intros He. unfold served. repeat split; auto.
  - exists [e]. cbn. now rewrite He.
  - exists []. cbn. now rewrite app_nil_r.
Qed.

Lemma deliver_served (m : inbound) (s : SwiftLanguageServer) :
  served s (snd (deliver m s)).
Proof.
  destruct m as [method params|method params]; unfold deliver; do 2 step.
  - eapply served_trans; [apply (wired_served (ReceivedNotification method params)); reflexivity|].
    destruct (_ !! method) as [h|]; [apply call_served | apply served_refl].
  - eapply served_trans; [apply (wired_served (ReceivedRequest method params)); reflexivity|].
    destruct (_ !! method) as [h|];
      [|apply (wired_served SentErrorReply); reflexivity].
    match goal with |- context [call ?h ?p ?s] =>
      pose proof (call_served h p s) as Hc; destruct (call h p s) as [[result|e] s'] end.
    + eapply served_trans; [exact Hc|]. apply (wired_served (SentReply result)). reflexivity.
    + eapply served_trans; [exact Hc|]. apply (wired_served SentErrorReply). reflexivity.
Qed.

Lemma deliver_all_served (ms : list inbound) (s : SwiftLanguageServer) :
  served s (snd (deliver_all ms s)).
Proof.
  revert s. induction ms as [|m ms IH]; intros s; [apply served_refl|].
  cbn [deliver_all]. erewrite bind_ret_step by apply deliver_ret.
  eapply served_trans; [apply deliver_served | apply IH].
Qed.

Lemma analysis_complete_wait_state (ms : list inbound) (s : SwiftLanguageServer) :
  snd (analysis_complete_wait ms s) = snd (deliver_all ms s).
Proof. now rewrite analysis_complete_wait_run. Qed.

Lemma analysis_complete_wait_served (ms : list inbound) (s : SwiftLanguageServer) :
  served s (snd (analysis_complete_wait ms s)).
Proof. rewrite analysis_complete_wait_state. apply deliver_all_served. Qed.

(** Where the tables of a fresh object route a message after the
    registrations. *)
Lemma install_notification_lookup (method : string) (h : handler) :
  install_notification_handlers ∅ !! method = Some h ->
  (method = "window/logMessage" /\ h = H_window_log_message) \/
  (method = "window/showMessage" /\ h = H_window_show_message) \/
  (method = "$/progress" /\ h = H_progress_notification) \/
  (method = "textDocument/publishDiagnostics" /\ h = H_do_nothing).
Proof.
  unfold install_notification_handlers. rewrite !lookup_insert.
  repeat case_decide; subst; rewrite ?lookup_empty; intros [=]; subst; auto 10.
Qed.

Lemma install_request_lookup (method : string) (h : handler) :
  install_request_handlers ∅ !! method = Some h ->
  h = H_do_nothing \/ h = H_execute_client_command_handler \/
  h = H_workspace_configuration_handler.
Proof.
  unfold install_request_handlers. rewrite !lookup_insert.
  repeat case_decide; subst; rewrite ?lookup_empty; intros [=]; subst; auto.
Qed.

Lemma served_routed (s s' : SwiftLanguageServer) :
  served s s' -> routed s -> routed s'.
Proof. intros (_ & Hq & Hn & _) [H1 H2]. split; congruence. Qed.

Lemma call_quiet (h : handler) (params : json) (s : SwiftLanguageServer) :
  ~ readiness_match h params -> flags (snd (call h params s)) = flags s.
Proof. intros Hn. destruct (call_cases h params s) as [H|[H _]]; [exact H | contradiction]. Qed.

(** A message that matches no rule leaves the readiness fields alone. *)
Lemma deliver_quiet (m : inbound) (s : SwiftLanguageServer) :
  routed s -> ~ inbound_match m -> flags (snd (deliver m s)) = flags s.
Proof.
  intros [Hq Hn] Hm.
  destruct m as [method params|method params]; unfold deliver; do 2 step.
  - rewrite Hn. destruct (_ !! method) as [h|] eqn:Hl; [|reflexivity].
    cbn [snd]. rewrite call_quiet; [reflexivity|]. intros Hr. apply Hm.
    destruct (install_notification_lookup _ _ Hl) as [[-> ->]|[[-> ->]|[[-> ->]|[-> ->]]]];
      try (now constructor). inversion Hr.
  - rewrite Hq. destruct (_ !! method) as [h|] eqn:Hl; [|reflexivity].
    match goal with |- context [call ?h ?p ?s] =>
      pose proof (call_quiet h p s) as Hc; destruct (call h p s) as [[result|e] s'] end;
      cbn [snd] in Hc; (transitivity (flags s'); [reflexivity|]);
      (rewrite Hc; [reflexivity|]);
      intros Hr; destruct (install_request_lookup _ _ Hl) as [->|[->| ->]]; inversion Hr.
Qed.

Lemma deliver_all_quiet (ms : list inbound) (s : SwiftLanguageServer) :
  routed s -> Forall (fun m => ~ inbound_match m) ms ->
  flags (snd (deliver_all ms s)) = flags s.
Proof.
  revert s. induction ms as [|m ms IH]; intros s Hr Hms; [reflexivity|].
  inversion Hms as [|? ? Hm Hrest]; subst.
  cbn [deliver_all]. erewrite bind_ret_step by apply deliver_ret.
  rewrite IH; [now apply deliver_quiet| |exact Hrest].
  eapply served_routed; [apply deliver_served | exact Hr].
Qed.

Lemma analysis_complete_wait_quiet (ms : list inbound) (s : SwiftLanguageServer) :
  routed s -> Forall (fun m => ~ inbound_match m) ms ->
  flags (snd (analysis_complete_wait ms s)) = flags s.
Proof. rewrite analysis_complete_wait_state. apply deliver_all_quiet. Qed.

(** ** The readiness fields along a run *)

Lemma latched_flags (s s' : SwiftLanguageServer) :
  flags s' = flags s \/ flags s' = (true, true, true) -> latched s -> latched s'.
Proof.
  unfold latched, flags. intros [[= H1 H2 H3]|[= H1 H2 H3]] [Ha Hb];
    rewrite H1, H2, H3; auto.
Qed.

Lemma latched_init (root : string) (completions : bool) : latched (init root completions).
Proof. split; discriminate. Qed.

Lemma handshaken_flags (p : peer) (params : json) (self : SwiftLanguageServer) :
  flags (handshaken p params self) = flags self \/
  flags (handshaken p params self) = (true, true, true).
Proof.
  unfold handshaken.
  match goal with |- context [deliver_all ?ms ?s] =>
    destruct (deliver_all_served ms s) as (_ & _ & _ & _ & _ & H) end.
  exact H.
Qed.

Lemma warned_flags (has : bool) (capability : string) (self : SwiftLanguageServer) :
  flags (warned has capability self) = flags self.
Proof. now destruct has. Qed.

Lemma awaiting_flags (b1 b2 : bool) (self : SwiftLanguageServer) :
  flags (awaiting b1 b2 self) = flags self.
Proof. unfold awaiting. now destruct b1, b2. Qed.

Lemma latched_start (pid : Z) (as_uri : string -> outcome string)
    (basename : string -> string) (p : peer) (self : SwiftLanguageServer) :
  latched self -> latched (snd (_start_server pid as_uri basename p self)).
Proof.
  intros Hl. rewrite start_server_run.
  destruct (_get_initialize_params _ _ _ _) as [params|e]; [|exact Hl].
  cbn zeta.
  pose proof (latched_flags _ _ (handshaken_flags p params self) Hl) as H2.
  destruct (py_get _ _ _) as [capabilities|e]; [|exact H2].
  destruct (py_in "textDocumentSync" _) as [[]|e]; try exact H2.
  destruct (py_in "completionProvider" _) as [b1|e]; [|exact H2].
  destruct (py_in "definitionProvider" _) as [b2|e].
  2:{ eapply latched_flags; [left; apply warned_flags | exact H2]. }
  assert (latched (awaiting b1 b2 (handshaken p params self))) as H3.
  { eapply latched_flags; [left; apply awaiting_flags | exact H2]. }
  destruct (analysis_complete_wait_served (arrivals p) (awaiting b1 b2 (handshaken p params self)))
    as (_ & _ & _ & _ & _ & H).
  pose proof (latched_flags _ _ H H3) as H4.
  destruct (analysis_complete _) eqn:Ha; [exact H4|].
  split; reflexivity.
Qed.

Lemma reachable_latched (self : SwiftLanguageServer) : reachable self -> latched self.
Proof.
  induction 1 as [root c|h params s Hs IH|pid as_uri basename p s Hs IH].
  - apply latched_init.
  - eapply latched_flags; [|exact IH].
    destruct (call_cases h params s) as [H|[_ H]]; auto.
  - now apply latched_start.
Qed.

(** * The claims *)

(** ** C6 *)

(** C6.  A workspace/configuration request that carries a list of [n]
    requested items is answered with a list of exactly [n] empty
    configuration objects, and the handler changes nothing in the object. *)
Theorem workspace_configuration_reply (m : gmap string json) (items : list json)
    (self : SwiftLanguageServer) :
  m !! "items" = Some (JList items) ->
  workspace_configuration_handler (JObj m) self =
    (Ret (JList (replicate (length items) (JObj ∅))), self) /\
  length (replicate (length items) (JObj ∅)) = length items /\
  Forall (fun entry => entry = JObj ∅) (replicate (length items) (JObj ∅)).
Proof.
  intros Hm. split; [|split].
  - unfold workspace_configuration_handler, bind, eval, ret. cbn. now rewrite Hm.
  - apply length_replicate.
  - apply Forall_forall. intros x Hx. now apply elem_of_replicate in Hx.
Qed.

Lemma workspace_configuration_reply_witness :
  workspace_configuration_handler
    (dict [("items", JList [dict [("section", JStr "swift")]; JNull; JStr "x"])])
    (init "/w" false) =
  (Ret (JList [JObj ∅; JObj ∅; JObj ∅]), init "/w" false).
Proof.
  exact (proj1 (workspace_configuration_reply
    (list_to_map [("items", JList [dict [("section", JStr "swift")]; JNull; JStr "x"])])
    [dict [("section", JStr "swift")]; JNull; JStr "x"]
    (init "/w" false) eq_refl)).
Defined.

(** ** C7 *)

(** C7, as the code has it.  A window/logMessage notification whose
    message text contains, as a case-insensitive substring, any one of
    "indexing complete", "finished indexing", "build complete",
    "compilation finished" or "swift package resolved" makes the log
    handler set the readiness signal (with the completions signal and
    [found_source_files]), whatever the state before. *)
Theorem window_log_message_sets_readiness (m : gmap string json) (text keyword : string)
    (self : SwiftLanguageServer) :
  m !! "message" = Some (JStr text) ->
  keyword = "indexing complete" \/ keyword = "finished indexing" \/
  keyword = "build complete" \/ keyword = "compilation finished" \/
  keyword = "swift package resolved" ->
  contains_ci keyword text ->
  fst (window_log_message (JObj m) self) = Ret JNull /\
  flags (snd (window_log_message (JObj m) self)) = (true, true, true).
Proof.
  intros Hm Hk Hc.
  assert (rule_matches log_message_keywords text) as Hr.
  { exists keyword. split; [|exact Hc]. unfold log_message_keywords.
    rewrite !elem_of_cons. tauto. }
  split.
  - unfold window_log_message, bind, eval, log. cbn -[py_any_keyword_in_lower]. rewrite Hm.
    now rewrite (any_of_rule_matches _ _ log_message_keywords_lower Hr).
  - apply (call_fires H_window_log_message (JObj m) self); [|now left].
    now apply match_log_message with text.
Qed.

Lemma window_log_message_sets_readiness_witness :
  contains_ci "build complete" "Build Complete for target App" /\
  flags (snd (window_log_message
                (dict [("message", JStr "Build Complete for target App"); ("type", JInt 3)])
                (init "/w" false))) = (true, true, true).
Proof.
  assert (contains_ci "build complete" "Build Complete for target App") as Hc.
  { exists "", "Build Complete", " for target App". split; reflexivity. }
  split; [exact Hc|].
  refine (proj2 (window_log_message_sets_readiness
    (list_to_map [("message", JStr "Build Complete for target App"); ("type", JInt 3)])
    "Build Complete for target App" "build complete" (init "/w" false) eq_refl _ Hc)).
  right; right; left; reflexivity.
Defined.

(** C7, as stated, fails: "package resolved" is not one of the handler's
    keywords.  A log message that contains it, and none of the handler's
    five, leaves the readiness signal unset. *)
Lemma window_log_message_package_resolved_counterexample :
  ~ (forall (m : gmap string json) (text keyword : string) (self : SwiftLanguageServer),
       m !! "message" = Some (JStr text) ->
       keyword ∈ spec_log_message_keywords ->
       contains_ci keyword text ->
       analysis_complete (snd (window_log_message (JObj m) self)) = true).
Proof.
  intros H.
  specialize (H (list_to_map [("message", JStr "Package resolved")])
                "Package resolved" "package resolved" (init "/w" false) eq_refl).
  cut (false = true); [discriminate|]. apply H.
  - unfold spec_log_message_keywords. rewrite !elem_of_cons. tauto.
  - exists "", "Package resolved", "". split; reflexivity.
Qed.

(** ** C5 *)

(** C5.  On every state the object can be in, a $/progress notification
    whose value has kind "end" and whose message contains "indexing",
    "building" or "resolving" as a case-insensitive substring leaves the
    readiness signal set; "building dependencies" is such a message.
    With any other kind, "begin" for one, the handler changes nothing at
    all. *)
Theorem progress_end_sets_readiness (m value : gmap string json) (kind : json)
    (text : string) (self : SwiftLanguageServer) :
  reachable self ->
  m !! "value" = Some (JObj value) ->
  value !! "kind" = Some kind ->
  value !! "message" = Some (JStr text) ->
  (kind = JStr "end" ->
   contains_ci "indexing" text \/ contains_ci "building" text \/
   contains_ci "resolving" text \/ text = "building dependencies" ->
   fst (progress_notification (JObj m) self) = Ret JNull /\
   analysis_complete (snd (progress_notification (JObj m) self)) = true) /\
  (kind <> JStr "end" ->
   progress_notification (JObj m) self = (Ret JNull, self)).
Proof.
  intros Hreach Hv Hkind Hm. split.
  - intros -> Hc.
    assert (rule_matches progress_keywords text) as Hr.
    { unfold rule_matches, progress_keywords.
      destruct Hc as [Hc|[Hc|[Hc| ->]]].
      - exists "indexing". rewrite !elem_of_cons. tauto.
      - exists "building". rewrite !elem_of_cons. tauto.
      - exists "resolving". rewrite !elem_of_cons. tauto.
      - exists "building". rewrite !elem_of_cons. split; [tauto|].
        exists "", "building", " dependencies". split; reflexivity. }
    split.
    + unfold progress_notification, bind, eval, log, get.
      cbn -[py_any_keyword_in_lower]. rewrite Hv. cbn -[py_any_keyword_in_lower].
      rewrite Hkind, Hm. cbn -[py_any_keyword_in_lower].
      rewrite (any_of_rule_matches _ _ progress_keywords_lower Hr). cbn.
      now destruct (found_source_files self).
    + assert (readiness_match H_progress_notification (JObj m)) as Hmatch
        by (now apply match_progress with value text).
      destruct (found_source_files self) eqn:Hf.
      * destruct (call_cases H_progress_notification (JObj m) self) as [H|[_ H]];
          cbn [call] in H; unfold flags in H; injection H as H _ _; rewrite H; [|reflexivity].
        now apply (reachable_latched self Hreach).
      * pose proof (call_fires H_progress_notification (JObj m) self Hmatch (or_intror Hf)) as H.
        cbn [call] in H. unfold flags in H. now injection H as H _ _.
  - intros Hne.
    unfold progress_notification, bind, eval.
    cbn -[py_any_keyword_in_lower py_eq_str]. rewrite Hv.
    cbn -[py_any_keyword_in_lower py_eq_str]. rewrite Hkind.
    destruct (py_eq_str kind "end") eqn:He; [|reflexivity].
    apply py_eq_str_true in He. contradiction.
Qed.

Lemma progress_end_sets_readiness_witness :
  analysis_complete
    (snd (progress_notification
            (dict [("token", JStr "t1");
                   ("value", dict [("kind", JStr "end");
                                   ("message", JStr "Resolving Package Graph")])])
            (init "/w" false))) = true /\
  analysis_complete
    (snd (progress_notification
            (dict [("token", JStr "t1");
                   ("value", dict [("kind", JStr "end");
                                   ("message", JStr "Done INDEXING")])])
            (init "/w" false))) = true /\
  analysis_complete
    (snd (progress_notification
            (dict [("token", JStr "t1");
                   ("value", dict [("kind", JStr "end");
                                   ("message", JStr "building dependencies")])])
            (init "/w" false))) = true /\
  progress_notification
    (dict [("token", JStr "t1");
           ("value", dict [("kind", JStr "begin");
                           ("message", JStr "Building Dependencies")])])
    (init "/w" false) = (Ret JNull, init "/w" false).
Proof.
  split; [|split; [|split]].
  - refine (proj2 (proj1 (progress_end_sets_readiness
      (list_to_map [("token", JStr "t1");
                    ("value", dict [("kind", JStr "end");
                                    ("message", JStr "Resolving Package Graph")])])
      (list_to_map [("kind", JStr "end"); ("message", JStr "Resolving Package Graph")])
      (JStr "end") "Resolving Package Graph" (init "/w" false)
      (reachable_init "/w" false) eq_refl eq_refl eq_refl) eq_refl _)).
    right; right; left. exists "", "Resolving", " Package Graph". split; reflexivity.
  - refine (proj2 (proj1 (progress_end_sets_readiness
      (list_to_map [("token", JStr "t1");
                    ("value", dict [("kind", JStr "end");
                                    ("message", JStr "Done INDEXING")])])
      (list_to_map [("kind", JStr "end"); ("message", JStr "Done INDEXING")])
      (JStr "end") "Done INDEXING" (init "/w" false)
      (reachable_init "/w" false) eq_refl eq_refl eq_refl) eq_refl _)).
    left. exists "Done ", "INDEXING", "". split; reflexivity.
  - refine (proj2 (proj1 (progress_end_sets_readiness
      (list_to_map [("token", JStr "t1");
                    ("value", dict [("kind", JStr "end");
                                    ("message", JStr "building dependencies")])])
      (list_to_map [("kind", JStr "end"); ("message", JStr "building dependencies")])
      (JStr "end") "building dependencies" (init "/w" false)
      (reachable_init "/w" false) eq_refl eq_refl eq_refl) eq_refl _)).
    right; right; right. reflexivity.
  - refine (proj2 (progress_end_sets_readiness
      (list_to_map [("token", JStr "t1");
                    ("value", dict [("kind", JStr "begin");
                                    ("message", JStr "Building Dependencies")])])
      (list_to_map [("kind", JStr "begin"); ("message", JStr "Building Dependencies")])
      (JStr "begin") "Building Dependencies" (init "/w" false)
      (reachable_init "/w" false) eq_refl eq_refl eq_refl) _).
    discriminate.
Defined.

(** ** C3 *)

Lemma run_calls_app (l1 l2 : list (handler * json)) (s : SwiftLanguageServer) :
  run_calls (l1 ++ l2) s = run_calls l2 (run_calls l1 s).
Proof. apply fold_left_app. Qed.

Lemma run_calls_quiet (calls : list (handler * json)) (s : SwiftLanguageServer) :
  Forall (fun c => ~ readiness_match (fst c) (snd c)) calls ->
  flags (run_calls calls s) = flags s.
Proof.
  revert s. induction calls as [|[h params] calls IH]; intros s Hq; [reflexivity|].
  inversion Hq as [|? ? Hc Hrest]; subst. cbn [run_calls fold_left fst snd].
  change (flags (run_calls calls (snd (call h params s))) = flags s).
  rewrite IH by exact Hrest. now apply call_quiet.
Qed.

Lemma run_calls_session (calls : list (handler * json)) (s : SwiftLanguageServer) :
  flags s = (true, true, true) ->
  session (run_calls calls s) = session s.
Proof.
  revert s. induction calls as [|[h params] calls IH]; intros s Hs; [reflexivity|].
  cbn [run_calls fold_left fst snd].
  change (session (run_calls calls (snd (call h params s))) = session s).
  assert (flags (snd (call h params s)) = (true, true, true)) as Hf.
  { destruct (call_cases h params s) as [H|[_ H]]; congruence. }
  rewrite IH by exact Hf.
  destruct (call_frame h params s) as (Hr & Hsrv & _).
  unfold session. now rewrite Hr, Hsrv, Hf, Hs.
Qed.

(** C3.  The readiness signal is a latch.  Take any sequence of
    notifications delivered to the handlers of a fresh object: as long as
    none matches a keyword rule the signal stays pending; the first one
    that matches sets it; whatever is delivered afterwards, matching or
    not, leaves the signal and the rest of the session as they are; and in
    no state does a handler unset the signal. *)
Theorem readiness_latch (root : string) (completions : bool)
    (before later : list (handler * json)) (h : handler) (params : json) :
  Forall (fun c => ~ readiness_match (fst c) (snd c)) before ->
  readiness_match h params ->
  analysis_complete (run_calls before (init root completions)) = false /\
  analysis_complete (run_calls (before ++ [(h, params)]) (init root completions)) = true /\
  session (run_calls (before ++ (h, params) :: later) (init root completions)) =
    session (run_calls (before ++ [(h, params)]) (init root completions)) /\
  (forall (s : SwiftLanguageServer) (h' : handler) (params' : json),
     analysis_complete s = true ->
     analysis_complete (snd (call h' params' s)) = true).
Proof.
  intros Hq Hm.
  pose proof (run_calls_quiet before (init root completions) Hq) as Hb.
  assert (flags (run_calls (before ++ [(h, params)]) (init root completions)) =
          (true, true, true)) as Hfired.
  { rewrite run_calls_app. cbn [run_calls fold_left fst snd].
    apply call_fires; [exact Hm|]. right.
    unfold flags in Hb. now injection Hb as _ _ ->. }
  split; [|split; [|split]].
  - unfold flags in Hb. now injection Hb as -> _ _.
  - unfold flags in Hfired. now injection Hfired as -> _ _.
  - change (before ++ (h, params) :: later)%list
      with (before ++ [(h, params)] ++ later)%list.
    rewrite app_assoc, (run_calls_app (before ++ [(h, params)])).
    now apply run_calls_session.
  - intros s h' params' Hs.
    destruct (call_cases h' params' s) as [H|[_ H]];
      unfold flags in H; injection H as H _ _; congruence.
Qed.

Lemma readiness_latch_witness :
  analysis_complete
    (run_calls
       ([(H_window_log_message, dict [("message", JStr "Indexing started")]);
         (H_progress_notification,
          dict [("value", dict [("kind", JStr "begin"); ("message", JStr "Indexing")])])]
        ++ [(H_window_show_message, dict [("message", JStr "Build succeeded")])])
       (init "/w" false)) = true.
Proof.
  refine (proj1 (proj2 (readiness_latch "/w" false
    [(H_window_log_message, dict [("message", JStr "Indexing started")]);
     (H_progress_notification,
      dict [("value", dict [("kind", JStr "begin"); ("message", JStr "Indexing")])])]
    [] H_window_show_message (dict [("message", JStr "Build succeeded")]) _ _))).
  - repeat constructor; cbn [fst snd]; intros Hm; inversion Hm as
      [m text Hl Hr|m text Hl Hr|m value text Hv Hk Hl Hr]; subst.
    + vm_compute in Hl. injection Hl as <-.
      apply (any_keyword_in_lower_iff _ _ log_message_keywords_lower) in Hr.
      vm_compute in Hr. discriminate.
    + vm_compute in Hv. injection Hv as <-. vm_compute in Hk. discriminate.
  - apply match_show_message with "Build succeeded"; [reflexivity|].
    exists "build succeeded". split.
    + unfold show_message_keywords. rewrite !elem_of_cons. tauto.
    + exists "", "Build succeeded", "". split; reflexivity.
Defined.

(** ** C9 *)

(** C9.  [is_ignored_dirname] compares the directory name for equality
    with the eight literal entries: it holds exactly of the names the
    superclass ignores and of those eight strings, the two starred entries
    taken literally.  On every other name, "App.xcodeproj" and
    "App.xcworkspace" among them, it is the superclass's answer. *)
Theorem is_ignored_dirname_exact (super_is_ignored_dirname : string -> bool)
    (dirname : string) :
  (is_ignored_dirname super_is_ignored_dirname dirname = true <->
   super_is_ignored_dirname dirname = true \/
   dirname = ".build" \/ dirname = ".swiftpm" \/ dirname = "build" \/
   dirname = "DerivedData" \/ dirname = ".DS_Store" \/ dirname = "xcuserdata" \/
   dirname = "*.xcworkspace" \/ dirname = "*.xcodeproj") /\
  (~ (dirname = ".build" \/ dirname = ".swiftpm" \/ dirname = "build" \/
      dirname = "DerivedData" \/ dirname = ".DS_Store" \/ dirname = "xcuserdata" \/
      dirname = "*.xcworkspace" \/ dirname = "*.xcodeproj") ->
   is_ignored_dirname super_is_ignored_dirname dirname =
     super_is_ignored_dirname dirname) /\
  is_ignored_dirname super_is_ignored_dirname "App.xcodeproj" =
    super_is_ignored_dirname "App.xcodeproj" /\
  is_ignored_dirname super_is_ignored_dirname "App.xcworkspace" =
    super_is_ignored_dirname "App.xcworkspace".
Proof.
  assert (str_in_list dirname swift_ignored_dirnames = true <->
          (dirname = ".build" \/ dirname = ".swiftpm" \/ dirname = "build" \/
           dirname = "DerivedData" \/ dirname = ".DS_Store" \/ dirname = "xcuserdata" \/
           dirname = "*.xcworkspace" \/ dirname = "*.xcodeproj")) as Hin.
  { unfold str_in_list, swift_ignored_dirnames. cbn [existsb].
    rewrite !orb_true_iff, !String.eqb_eq. intuition discriminate. }
  unfold is_ignored_dirname. split; [|split; [|split]].
  - rewrite orb_true_iff, Hin. reflexivity.
  - intros Hn. destruct (str_in_list dirname swift_ignored_dirnames) eqn:He.
    + exfalso. apply Hn, Hin. reflexivity.
    + apply orb_false_r.
  - apply orb_false_r.
  - apply orb_false_r.
Qed.

Lemma is_ignored_dirname_exact_witness :
  is_ignored_dirname (fun _ => false) "*.xcodeproj" = true /\
  is_ignored_dirname (fun _ => false) "App.xcodeproj" = false.
Proof.
  split.
  - apply (proj1 (is_ignored_dirname_exact (fun _ => false) "*.xcodeproj")).
    do 8 right. reflexivity.
  - exact (proj1 (proj2 (proj2 (is_ignored_dirname_exact (fun _ => false) "App.xcodeproj")))).
Defined.

(** ** C8 *)

(** The entry of a document under a key. *)
Lemma initialize_entries_no_process_id (basename : string -> string)
    (path root_uri folder_uri : string) :
  (list_to_map (initialize_entries basename path root_uri folder_uri)
     : gmap string json) !! "processId" = None.
Proof.
  apply not_elem_of_list_to_map_1. cbn. rewrite !elem_of_cons, elem_of_nil.
  intuition discriminate.
Qed.

Lemma get_initialize_params_ret (pid : Z) (as_uri : string -> outcome string)
    (basename : string -> string) (path uri : string) :
  as_uri path = Ret uri ->
  _get_initialize_params pid as_uri basename path =
  Ret (JObj (<["processId" := JInt pid]>
               (list_to_map (initialize_entries basename path uri uri)))).
Proof. unfold _get_initialize_params. now intros ->. Qed.

Lemma get_initialize_params_raise (pid : Z) (as_uri : string -> outcome string)
    (basename : string -> string) (path : string) (e : exn) :
  as_uri path = Raise e ->
  _get_initialize_params pid as_uri basename path = Raise e.
Proof. unfold _get_initialize_params. now intros ->. Qed.

(** Without the three entries that hold readings of the process, the
    document depends on the path alone. *)
Lemma initialize_params_frame (basename1 basename2 : string -> string) (pid1 pid2 : Z)
    (path uri1 uri2 : string) :
  delete "processId" (delete "rootUri" (delete "workspaceFolders"
    (<["processId" := JInt pid1]>
       (list_to_map (initialize_entries basename1 path uri1 uri1) : gmap string json)))) =
  delete "processId" (delete "rootUri" (delete "workspaceFolders"
    (<["processId" := JInt pid2]>
       (list_to_map (initialize_entries basename2 path uri2 uri2))))).
Proof.
  unfold initialize_entries. cbn [list_to_map foldr uncurry fst snd].
  repeat (rewrite delete_insert_eq || rewrite delete_insert_ne by discriminate).
  reflexivity.
Qed.

Lemma initialize_params_readings (basename : string -> string) (pid : Z)
    (path uri : string) :
  let d : gmap string json :=
    <["processId" := JInt pid]> (list_to_map (initialize_entries basename path uri uri)) in
  d !! "processId" = Some (JInt pid) /\
  d !! "rootUri" = Some (JStr uri) /\
  d !! "workspaceFolders" =
    Some (JList [dict [("uri", JStr uri); ("name", JStr (basename path))]]).
Proof.
  unfold initialize_entries. cbn [list_to_map foldr uncurry fst snd].
  repeat split;
    repeat (rewrite lookup_insert_ne by discriminate); apply lookup_insert_eq.
Qed.

(** C8, as the code has it.  The initialize parameters are built from
    the workspace root path, the static configuration and what the running
    process reads: its id ([os.getpid()]), the file URI pathlib gives the
    path there ([as_uri], which goes by the file-system encoding of the
    process and may raise) and the base name its platform's [os.path]
    gives the path.  The call fails exactly when [as_uri] does, with its
    exception.  Otherwise two processes that are given the same path get
    documents that hold their own readings under "processId", "rootUri"
    and "workspaceFolders" and are equal everywhere else; the documents
    are equal when the three readings are. *)
Theorem initialize_params_up_to_process_readings (pid1 pid2 : Z)
    (as_uri1 as_uri2 : string -> outcome string) (basename1 basename2 : string -> string)
    (repository_absolute_path : string) :
  (forall e : exn,
     _get_initialize_params pid1 as_uri1 basename1 repository_absolute_path = Raise e <->
     as_uri1 repository_absolute_path = Raise e) /\
  (forall uri1 uri2 : string,
     as_uri1 repository_absolute_path = Ret uri1 ->
     as_uri2 repository_absolute_path = Ret uri2 ->
     exists d1 d2 : gmap string json,
       _get_initialize_params pid1 as_uri1 basename1 repository_absolute_path =
         Ret (JObj d1) /\
       _get_initialize_params pid2 as_uri2 basename2 repository_absolute_path =
         Ret (JObj d2) /\
       d1 !! "processId" = Some (JInt pid1) /\
       d2 !! "processId" = Some (JInt pid2) /\
       d1 !! "rootUri" = Some (JStr uri1) /\
       d2 !! "rootUri" = Some (JStr uri2) /\
       d1 !! "workspaceFolders" =
         Some (JList [dict [("uri", JStr uri1);
                            ("name", JStr (basename1 repository_absolute_path))]]) /\
       d2 !! "workspaceFolders" =
         Some (JList [dict [("uri", JStr uri2);
                            ("name", JStr (basename2 repository_absolute_path))]]) /\
       delete "processId" (delete "rootUri" (delete "workspaceFolders" d1)) =
       delete "processId" (delete "rootUri" (delete "workspaceFolders" d2)) /\
       (pid1 = pid2 -> uri1 = uri2 ->
        basename1 repository_absolute_path = basename2 repository_absolute_path ->
        d1 = d2)).
Proof.
  split.
  - intros e. destruct (as_uri1 repository_absolute_path) as [uri|e'] eqn:Hu.
    + rewrite (get_initialize_params_ret _ _ _ _ _ Hu). split; discriminate.
    + rewrite (get_initialize_params_raise _ _ _ _ _ Hu).
      split; intros [= ->]; reflexivity.
  - intros uri1 uri2 H1 H2.
    rewrite (get_initialize_params_ret _ _ _ _ _ H1), (get_initialize_params_ret _ _ _ _ _ H2).
    destruct (initialize_params_readings basename1 pid1 repository_absolute_path uri1)
      as (Ha1 & Hb1 & Hc1).
    destruct (initialize_params_readings basename2 pid2 repository_absolute_path uri2)
      as (Ha2 & Hb2 & Hc2).
    do 2 eexists. split; [reflexivity|]. split; [reflexivity|].
    repeat (split; [eassumption|]). split.
    + apply initialize_params_frame.
    + intros -> -> Hb. unfold initialize_entries. now rewrite Hb.
Qed.

Lemma initialize_params_up_to_process_readings_witness :
  _get_initialize_params 4243 (fun _ => Raise ValueError) (fun _ => "é") "/work/é" =
    Raise ValueError /\
  exists d1 d2 : gmap string json,
    _get_initialize_params 4242 (fun _ => Ret "file:///work/%C3%A9") (fun _ => "é")
      "/work/é" = Ret (JObj d1) /\
    _get_initialize_params 4243 (fun _ => Ret "file:///work/%C3%A9") (fun _ => "é")
      "/work/é" = Ret (JObj d2) /\
    d1 !! "rootUri" = Some (JStr "file:///work/%C3%A9") /\
    d1 !! "processId" = Some (JInt 4242) /\
    d2 !! "processId" = Some (JInt 4243) /\
    delete "processId" (delete "rootUri" (delete "workspaceFolders" d1)) =
    delete "processId" (delete "rootUri" (delete "workspaceFolders" d2)).
Proof.
  split.
  - exact (proj2 (proj1 (initialize_params_up_to_process_readings 4243 4243
                           (fun _ => Raise ValueError) (fun _ => Raise ValueError)
                           (fun _ => "é") (fun _ => "é") "/work/é") ValueError) eq_refl).
  - destruct (proj2 (initialize_params_up_to_process_readings 4242 4243
                       (fun _ => Ret "file:///work/%C3%A9")
                       (fun _ => Ret "file:///work/%C3%A9")
                       (fun _ => "é") (fun _ => "é") "/work/é")
                "file:///work/%C3%A9" "file:///work/%C3%A9" eq_refl eq_refl)
      as (d1 & d2 & H1 & H2 & H3 & H4 & H5 & _ & _ & _ & H6 & _).
    exists d1, d2. repeat split; assumption.
Defined.

(** C8, as stated, fails: the document holds the process id, so the same
    path gives different documents in different processes. *)
Lemma initialize_params_process_id_counterexample :
  ~ (forall (pid1 pid2 : Z) (as_uri : string -> outcome string)
            (basename : string -> string) (repository_absolute_path : string),
       _get_initialize_params pid1 as_uri basename repository_absolute_path =
       _get_initialize_params pid2 as_uri basename repository_absolute_path).
Proof.
  intros H. specialize (H 4242 4243 sample_as_uri sample_basename "/work/App").
  rewrite !(get_initialize_params_ret _ sample_as_uri _ _ _ eq_refl) in H.
  apply (f_equal (fun o : outcome json =>
                    match o with Ret (JObj d) => d !! "processId" | _ => None end)) in H.
  cbv beta iota in H. rewrite !lookup_insert_eq in H. discriminate H.
Qed.

(** ** The handshake *)

Lemma py_in_total (key key' : string) (c : json) (b : bool) :
  py_in key c = Ret b -> exists b', py_in key' c = Ret b'.
Proof. destruct c; cbn; intros [=]; eauto. Qed.

(** The traffic of the handshake: the transport is started, the request
    goes out, early messages are served, the response comes in. *)
Lemma handshaken_wire (p : peer) (params : json) (self : SwiftLanguageServer) :
  exists events,
    wire (server (handshaken p params self)) =
      (wire (server self) ++ Started :: SentRequest "initialize" params :: events ++
         [ReceivedResponse (init_response p)])%list /\
    forallb inbound_traffic events = true.
Proof.
  unfold handshaken.
  match goal with |- context [deliver_all ?ms ?s] =>
    destruct (deliver_all_served ms s) as (_ & _ & _ & (events & Hw & Hf) & _) end.
  exists events. split; [|exact Hf].
  cbn [logged wired with_logger with_server server wire]. rewrite Hw.
  cbn [started logged wired with_logger with_server server wire].
  rewrite <- !app_assoc. reflexivity.
Qed.

Lemma handshaken_routed (p : peer) (params : json) (root : string) (completions : bool) :
  routed (handshaken p params (init root completions)).
Proof.
  unfold handshaken.
  match goal with |- context [deliver_all ?ms ?s] =>
    pose proof (deliver_all_served ms s) as Hs;
    assert (routed s) as Hr by (split; reflexivity) end.
  destruct (served_routed _ _ Hs Hr) as [H1 H2]. split; assumption.
Qed.

Lemma handshaken_quiet (p : peer) (params : json) (root : string) (completions : bool) :
  Forall (fun m => ~ inbound_match m) (early p) ->
  flags (handshaken p params (init root completions)) = (false, completions, false).
Proof.
  intros Hq. unfold handshaken.
  match goal with |- context [deliver_all ?ms ?s] =>
    change (flags (snd (deliver_all ms s)) = (false, completions, false)) end.
  rewrite deliver_all_quiet; [reflexivity| |exact Hq]. split; reflexivity.
Qed.

Lemma awaiting_routed (b1 b2 : bool) (self : SwiftLanguageServer) :
  routed self -> routed (awaiting b1 b2 self).
Proof. unfold awaiting, routed. now destruct b1, b2. Qed.

(** The run of [_start_server] on a fresh object when the handshake
    passes and no inbound message matches: the wait times out and the
    fallback sets the two events. *)
Lemma start_server_timeout_run (pid : Z) (as_uri : string -> outcome string)
    (basename : string -> string) (root uri : string) (completions : bool) (p : peer) :
  as_uri root = Ret uri ->
  validated (init_response p) ->
  Forall (fun m => ~ inbound_match m) (early p) ->
  Forall (fun m => ~ inbound_match m) (arrivals p) ->
  exists s4,
    _start_server pid as_uri basename p (init root completions) =
      (Ret tt,
       with_completions_available true
         (with_analysis_complete true (logged timeout_warning s4))) /\
    flags s4 = (false, completions, false).
Proof.
  intros Hu (capabilities & Hcaps & Hsync) He Ha.
  rewrite start_server_run.
  change (repository_root_path (init root completions)) with root.
  rewrite (get_initialize_params_ret _ _ _ _ _ Hu). cbn zeta.
  rewrite Hcaps, Hsync.
  destruct (py_in_total _ "completionProvider" _ _ Hsync) as [b1 ->].
  destruct (py_in_total _ "definitionProvider" _ _ Hsync) as [b2 ->].
  match goal with |- context [analysis_complete_wait ?ms ?s] =>
    pose proof (analysis_complete_wait_quiet ms s) as Hw; set (s4 := snd (analysis_complete_wait ms s)) in * end.
  rewrite awaiting_flags, handshaken_quiet in Hw by exact He.
  specialize (Hw (awaiting_routed _ _ _ (handshaken_routed _ _ _ _)) Ha).
  exists s4. split; [|exact Hw].
  unfold flags in Hw. injection Hw as -> _ _. reflexivity.
Qed.

(** ** C1 *)

(** C1.  On a fresh object whose handshake passes, if no message that
    matches a readiness rule arrives, neither before the initialize
    response nor during the wait, [_start_server] returns normally: the
    wait times out, the timeout warning is the last log record, and the
    fallback leaves the readiness signal and the completions signal set
    ([found_source_files] stays false). *)
Theorem start_server_ready_by_timeout (pid : Z) (as_uri : string -> outcome string)
    (basename : string -> string) (root uri : string) (completions : bool) (p : peer) :
  as_uri root = Ret uri ->
  validated (init_response p) ->
  Forall (fun m => ~ inbound_match m) (early p) ->
  Forall (fun m => ~ inbound_match m) (arrivals p) ->
  let r := _start_server pid as_uri basename p (init root completions) in
  fst r = Ret tt /\
  analysis_complete (snd r) = true /\
  completions_available (snd r) = true /\
  found_source_files (snd r) = false /\
  snd timeout_warning = WARNING /\
  exists records, logger (snd r) = (records ++ [timeout_warning])%list.
Proof.
  intros Hu Hv He Ha.
  destruct (start_server_timeout_run pid as_uri basename root uri completions p Hu Hv He Ha)
    as (s4 & Hrun & Hf).
  cbn zeta. rewrite Hrun. unfold flags in Hf. injection Hf as _ _ Hfound.
  repeat split; try reflexivity; [exact Hfound|].
  exists (logger s4). reflexivity.
Qed.

Ltac no_match :=
  let H := fresh in
  intros H; inversion H as [? Hr|? Hr|? Hr]; subst;
  inversion Hr as [? ? Hl Hk|? ? Hl Hk|? ? ? Hv Hkind Hl Hk]; subst;
  repeat match goal with
  | Hm : _ !! _ = Some _ |- _ =>
      vm_compute in Hm; first [discriminate Hm | injection Hm as <-]
  end;
  try match goal with
  | Hk : rule_matches _ _ |- _ =>
      first
        [ apply (any_keyword_in_lower_iff log_message_keywords _
                   log_message_keywords_lower) in Hk
        | apply (any_keyword_in_lower_iff show_message_keywords _
                   show_message_keywords_lower) in Hk
        | apply (any_keyword_in_lower_iff progress_keywords _
                   progress_keywords_lower) in Hk ];
      vm_compute in Hk; discriminate Hk
  end.

Lemma quiet_peer_quiet :
  Forall (fun m => ~ inbound_match m) (early quiet_peer) /\
  Forall (fun m => ~ inbound_match m) (arrivals quiet_peer).
Proof.
  split; cbn [quiet_peer early arrivals];
    repeat (apply Forall_cons_2; [no_match|]); apply Forall_nil_2.
Defined.

Lemma quiet_peer_validated : validated (init_response quiet_peer).
Proof. exists (dict [("textDocumentSync", JInt 2)]). split; reflexivity. Defined.

Lemma start_server_ready_by_timeout_witness :
  fst (_start_server 4242 sample_as_uri sample_basename quiet_peer
         (init "/work/App" false)) = Ret tt /\
  analysis_complete
    (snd (_start_server 4242 sample_as_uri sample_basename quiet_peer
            (init "/work/App" false))) = true.
Proof.
  destruct (start_server_ready_by_timeout 4242 sample_as_uri sample_basename
              "/work/App" "file:///work/App" false quiet_peer eq_refl
              quiet_peer_validated (proj1 quiet_peer_quiet) (proj2 quiet_peer_quiet))
    as (H1 & H2 & _).
  split; [exact H1 | exact H2].
Defined.

(** ** C2 *)

Lemma inbound_traffic_not_initialized (events : list wire_event) :
  forallb inbound_traffic events = true ->
  forallb (fun e => negb (is_initialized_notification e)) events = true.
Proof.
  rewrite !forallb_forall. intros H e He. specialize (H e He).
  destruct e; try discriminate; reflexivity.
Qed.

(** The run of [_start_server] on a fresh object whose initialize response
    lacks the synchronization capability. *)
Lemma start_server_violation_run (pid : Z) (as_uri : string -> outcome string)
    (basename : string -> string) (root uri : string) (completions : bool) (p : peer)
    (capabilities : gmap string json) :
  as_uri root = Ret uri ->
  py_get (init_response p) "capabilities" (JObj ∅) = Ret (JObj capabilities) ->
  capabilities !! "textDocumentSync" = None ->
  _start_server pid as_uri basename p (init root completions) =
    (Raise sync_assertion,
     handshaken p
       (JObj (<["processId" := JInt pid]>
                (list_to_map (initialize_entries basename root uri uri))))
       (init root completions)).
Proof.
  intros Hu Hcaps Hsync. rewrite start_server_run.
  change (repository_root_path (init root completions)) with root.
  rewrite (get_initialize_params_ret _ _ _ _ _ Hu). cbn zeta.
  rewrite Hcaps. cbn [py_in]. rewrite Hsync. reflexivity.
Qed.

(** C2.  When the capabilities of the initialize response lack
    "textDocumentSync", [_start_server] on a fresh object raises the
    assertion error.  It has then sent one initialize request and nothing
    after the response came in, the initialized notification least of all;
    the response is the last thing logged; and the outcome does not depend
    on what the server would have sent during a readiness wait, for no wait
    takes place. *)
Theorem start_server_protocol_violation (pid : Z) (as_uri : string -> outcome string)
    (basename : string -> string) (root uri : string) (completions : bool) (p : peer)
    (capabilities : gmap string json) :
  as_uri root = Ret uri ->
  py_get (init_response p) "capabilities" (JObj ∅) = Ret (JObj capabilities) ->
  capabilities !! "textDocumentSync" = None ->
  let r := _start_server pid as_uri basename p (init root completions) in
  fst r = Raise sync_assertion /\
  (exists params events,
     wire (server (snd r)) =
       (Started :: SentRequest "initialize" params :: events ++
          [ReceivedResponse (init_response p)])%list /\
     forallb inbound_traffic events = true) /\
  forallb (fun e => negb (is_initialized_notification e)) (wire (server (snd r))) = true /\
  (exists records, logger (snd r) = (records ++ [response_record (init_response p)])%list) /\
  (forall later : list inbound,
     _start_server pid as_uri basename (mk_peer (early p) (init_response p) later)
       (init root completions) = r).
Proof.
  intros Hu Hcaps Hsync.
  pose proof (start_server_violation_run pid as_uri basename root uri completions p
                capabilities Hu Hcaps Hsync) as Hrun.
  cbn zeta. rewrite Hrun. cbn [fst snd].
  match goal with |- context [handshaken p ?params _] =>
    destruct (handshaken_wire p params (init root completions)) as (events & Hw & Hf) end.
  cbn [init server wire app] in Hw.
  split; [reflexivity|]. split; [eauto|]. split; [|split].
  - rewrite Hw. cbn [forallb is_initialized_notification negb andb].
    rewrite forallb_app, (inbound_traffic_not_initialized _ Hf). reflexivity.
  - eexists. reflexivity.
  - intros later.
    rewrite (start_server_violation_run pid as_uri basename root uri completions
               (mk_peer (early p) (init_response p) later) capabilities Hu Hcaps Hsync).
    reflexivity.
Qed.

Lemma start_server_protocol_violation_witness :
  fst (_start_server 4242 sample_as_uri sample_basename deficient_peer
         (init "/work/App" false)) = Raise sync_assertion /\
  forallb (fun e => negb (is_initialized_notification e))
    (wire (server (snd (_start_server 4242 sample_as_uri sample_basename deficient_peer
                          (init "/work/App" false))))) = true.
Proof.
  destruct (start_server_protocol_violation 4242 sample_as_uri sample_basename
              "/work/App" "file:///work/App" false deficient_peer
              (list_to_map [("completionProvider", dict [])]) eq_refl eq_refl eq_refl)
    as (H1 & _ & H3 & _).
  split; [exact H1 | exact H3].
Defined.

(** ** C4 *)

Lemma unique_split {X : Type} (f : X -> bool) (A B C D : list X) (x y : X) :
  forallb (fun e => negb (f e)) A = true ->
  f x = true -> f y = true ->
  (A ++ x :: B = C ++ y :: D)%list ->
  forallb (fun e => negb (f e)) B = true ->
  C = A.
Proof.
  intros HA Hx Hy Heq HB. revert C Heq.
  induction A as [|a A IH]; intros C Heq.
  - destruct C as [|c C]; [reflexivity|]. cbn in Heq. injection Heq as -> Heq.
    exfalso. assert (forallb (fun e => negb (f e)) (C ++ y :: D) = true) as H
      by (now rewrite <- Heq).
    rewrite forallb_app in H. cbn in H. rewrite Hy in H. cbn in H.
    now rewrite andb_false_r in H.
  - cbn in HA. apply andb_true_iff in HA as [Ha HA].
    destruct C as [|c C].
    + cbn in Heq. injection Heq as <- _. rewrite Hy in Ha. discriminate.
    + cbn in Heq. injection Heq as <- Heq. f_equal. now apply IH.
Qed.

Lemma no_split (f : wire_event -> bool) (W C D : list wire_event) (y : wire_event) :
  forallb (fun e => negb (f e)) W = true -> f y = true -> W <> (C ++ y :: D)%list.
Proof.
  intros HW Hy ->. rewrite forallb_app in HW. cbn in HW. rewrite Hy in HW.
  cbn in HW. now rewrite andb_false_r in HW.
Qed.

(** The traffic of a whole run on a fresh object: either no initialized
    notification at all, or the response is valid and the one initialized
    notification comes after it. *)
Lemma start_server_wire (pid : Z) (as_uri : string -> outcome string)
    (basename : string -> string) (root : string) (completions : bool) (p : peer) :
  let W := wire (server (snd (_start_server pid as_uri basename p (init root completions)))) in
  forallb (fun e => negb (is_initialized_notification e)) W = true \/
  (validated (init_response p) /\
   exists A B,
     W = (A ++ SentNotification "initialized" (JObj ∅) :: B)%list /\
     forallb (fun e => negb (is_initialized_notification e)) A = true /\
     forallb (fun e => negb (is_initialized_notification e)) B = true /\
     ReceivedResponse (init_response p) ∈ A).
Proof.
  cbn zeta. rewrite start_server_run.
  destruct (_get_initialize_params _ _ _ _) as [params|e]; [|left; reflexivity].
  cbn zeta.
  destruct (handshaken_wire p params (init root completions)) as (events & Hw & Hf).
  cbn [init server wire app] in Hw.
  assert (forallb (fun e => negb (is_initialized_notification e))
            (wire (server (handshaken p params (init root completions)))) = true) as Hquiet.
  { rewrite Hw. cbn [forallb is_initialized_notification negb andb].
    rewrite forallb_app, (inbound_traffic_not_initialized _ Hf). reflexivity. }
  destruct (py_get _ _ _) as [capabilities|e] eqn:Hcaps; [|left; exact Hquiet].
  destruct (py_in "textDocumentSync" _) as [[]|e] eqn:Hsync;
    [|left; exact Hquiet|left; exact Hquiet].
  destruct (py_in "completionProvider" _) as [b1|e]; [|left; exact Hquiet].
  destruct (py_in "definitionProvider" _) as [b2|e].
  2:{ left. destruct b1; exact Hquiet. }
  right. split; [exists capabilities; split; assumption|].
  destruct (analysis_complete_wait_served (arrivals p)
              (awaiting b1 b2 (handshaken p params (init root completions))))
    as (_ & _ & _ & (events2 & Hw2 & Hf2) & _).
  exists (wire (server (handshaken p params (init root completions)))), events2.
  split; [|split; [exact Hquiet|split]].
  - destruct (analysis_complete _); cbn [snd logged with_logger with_analysis_complete
      with_completions_available server]; rewrite Hw2;
      destruct b1, b2; cbn [awaiting warned logged wired with_logger with_server server wire];
      now rewrite <- app_assoc.
  - apply inbound_traffic_not_initialized, Hf2.
  - rewrite Hw. rewrite !elem_of_cons, elem_of_app, list_elem_of_singleton. auto.
Qed.

(** C4.  In every run of [_start_server] on a fresh object, wherever the
    initialized notification stands in the traffic, the initialize response
    was received before it and passed the check for the required
    capability; a run whose check fails sends no initialized notification. *)
Theorem initialized_only_after_validated_response (pid : Z)
    (as_uri : string -> outcome string) (basename : string -> string) (root : string)
    (completions : bool) (p : peer) (before after : list wire_event) (params : json) :
  wire (server (snd (_start_server pid as_uri basename p (init root completions)))) =
    (before ++ SentNotification "initialized" params :: after)%list ->
  validated (init_response p) /\
  ReceivedResponse (init_response p) ∈ before /\
  forallb (fun e => negb (is_initialized_notification e)) before = true.
Proof.
  intros HW.
  destruct (start_server_wire pid as_uri basename root completions p)
    as [Hnone|(Hv & A & B & HAB & HA & HB & Hin)].
  - exfalso. exact (no_split is_initialized_notification _ before after
               (SentNotification "initialized" params) Hnone eq_refl HW).
  - rewrite HAB in HW.
    assert (before = A) as ->
      by exact (unique_split is_initialized_notification A B before after
                  (SentNotification "initialized" (JObj ∅))
                  (SentNotification "initialized" params) HA eq_refl eq_refl HW HB).
    auto.
Qed.

(** The traffic of a run against [quiet_peer]. *)
Lemma quiet_peer_traffic :
  wire (server (snd (_start_server 4242 sample_as_uri sample_basename quiet_peer
                       (init "/work/App" false)))) =
  [ Started;
    SentRequest "initialize"
      (dict (("processId", JInt 4242) ::
             initialize_entries sample_basename "/work/App"
               "file:///work/App" "file:///work/App"));
    ReceivedNotification "window/logMessage" (dict [("message", JStr "Indexing started")]);
    ReceivedResponse (init_response quiet_peer);
    SentNotification "initialized" (JObj ∅);
    ReceivedRequest "workspace/configuration" (dict [("items", JList [JNull])]);
    SentReply (JList [JObj ∅]);
    ReceivedNotification "$/progress"
      (dict [("value", dict [("kind", JStr "begin"); ("message", JStr "Indexing")])]) ].
Proof.
  rewrite start_server_run.
  change (repository_root_path (init "/work/App" false)) with "/work/App".
  rewrite (get_initialize_params_ret _ sample_as_uri _ _ "file:///work/App" eq_refl).
  change (dict (("processId", JInt 4242) ::
                initialize_entries sample_basename "/work/App"
                  "file:///work/App" "file:///work/App"))
    with (JObj (<["processId" := JInt 4242]>
                  (list_to_map (initialize_entries sample_basename "/work/App"
                                  "file:///work/App" "file:///work/App")))).
  generalize (JObj (<["processId" := JInt 4242]>
                  (list_to_map (initialize_entries sample_basename "/work/App"
                                  "file:///work/App" "file:///work/App")))).
  intros params. vm_compute. reflexivity.
Qed.

Lemma initialized_only_after_validated_response_witness :
  validated (init_response quiet_peer) /\
  ReceivedResponse (init_response quiet_peer) ∈
    [ Started;
      SentRequest "initialize"
        (dict (("processId", JInt 4242) ::
               initialize_entries sample_basename "/work/App"
                 "file:///work/App" "file:///work/App"));
      ReceivedNotification "window/logMessage"
        (dict [("message", JStr "Indexing started")]);
      ReceivedResponse (init_response quiet_peer) ].
Proof.
  pose proof (initialized_only_after_validated_response
    4242 sample_as_uri sample_basename "/work/App" false quiet_peer
    [ Started;
      SentRequest "initialize"
        (dict (("processId", JInt 4242) ::
               initialize_entries sample_basename "/work/App"
                 "file:///work/App" "file:///work/App"));
      ReceivedNotification "window/logMessage"
        (dict [("message", JStr "Indexing started")]);
      ReceivedResponse (init_response quiet_peer) ]
    [ ReceivedRequest "workspace/configuration" (dict [("items", JList [JNull])]);
      SentReply (JList [JObj ∅]);
      ReceivedNotification "$/progress"
        (dict [("value", dict [("kind", JStr "begin"); ("message", JStr "Indexing")])]) ]
    (JObj ∅) quiet_peer_traffic) as (H1 & H2 & _).
  split; [exact H1 | exact H2].
Defined.

(** ** C10 *)

(** What a run of [_start_server] does to the readiness fields: nothing,
    or a handler sets all three, or the timeout fallback sets the two
    events and leaves [found_source_files]. *)
Lemma start_server_flags (pid : Z) (as_uri : string -> outcome string)
    (basename : string -> string) (p : peer) (self : SwiftLanguageServer) :
  flags (snd (_start_server pid as_uri basename p self)) = flags self \/
  flags (snd (_start_server pid as_uri basename p self)) = (true, true, true) \/
  flags (snd (_start_server pid as_uri basename p self)) =
    (true, true, found_source_files self).
Proof.
  rewrite start_server_run.
  destruct (_get_initialize_params _ _ _ _) as [params|e]; [|left; reflexivity].
  cbn zeta.
  assert (flags (handshaken p params self) = flags self \/
          flags (handshaken p params self) = (true, true, true)) as H2
    by apply handshaken_flags.
  assert (forall s, flags s = flags (handshaken p params self) ->
            flags s = flags self \/ flags s = (true, true, true) \/
            flags s = (true, true, found_source_files self)) as Hstop.
  { intros s ->. tauto. }
  destruct (py_get _ _ _) as [capabilities|e]; [|now apply Hstop].
  destruct (py_in "textDocumentSync" _) as [[]|e]; try now apply Hstop.
  destruct (py_in "completionProvider" _) as [b1|e]; [|now apply Hstop].
  destruct (py_in "definitionProvider" _) as [b2|e]; [|apply Hstop, warned_flags].
  destruct (analysis_complete_wait_served (arrivals p) (awaiting b1 b2 (handshaken p params self)))
    as (_ & _ & _ & _ & _ & H).
  rewrite awaiting_flags in H.
  destruct (analysis_complete _) eqn:Ha.
  - cbn [snd]. change (flags (logged ?e ?s)) with (flags s).
    destruct H as [H|H]; [now apply Hstop | tauto].
  - cbn [snd]. destruct H as [H|H].
    + destruct H2 as [H2|H2].
      * right. right. rewrite H2 in H. unfold flags in H. injection H as _ _ Hf.
        unfold flags. cbn. now rewrite Hf.
      * rewrite H2 in H. unfold flags in H. injection H as H _ _. congruence.
    + unfold flags in H. injection H as H _ _. congruence.
Qed.

(** C10.  Whatever sets the analysis-complete signal sets the
    completions-available signal in the same step: a handler call that
    sets the first leaves the second set, and [found_source_files] true;
    so does a run of [_start_server], timeout fallback included.  Hence
    in every state the object goes through, the first signal implies the
    second.  The timeout fallback, unlike the handlers, leaves
    [found_source_files] as it was: false on a fresh object. *)
Theorem analysis_complete_implies_completions_available :
  (forall (h : handler) (params : json) (self : SwiftLanguageServer),
     analysis_complete self = false ->
     analysis_complete (snd (call h params self)) = true ->
     completions_available (snd (call h params self)) = true /\
     found_source_files (snd (call h params self)) = true) /\
  (forall (pid : Z) (as_uri : string -> outcome string) (basename : string -> string)
          (p : peer) (self : SwiftLanguageServer),
     analysis_complete self = false ->
     analysis_complete (snd (_start_server pid as_uri basename p self)) = true ->
     completions_available (snd (_start_server pid as_uri basename p self)) = true) /\
  (forall self : SwiftLanguageServer,
     reachable self ->
     analysis_complete self = true -> completions_available self = true) /\
  (forall (pid : Z) (as_uri : string -> outcome string) (basename : string -> string)
          (root uri : string) (completions : bool) (p : peer),
     as_uri root = Ret uri ->
     validated (init_response p) ->
     Forall (fun m => ~ inbound_match m) (early p) ->
     Forall (fun m => ~ inbound_match m) (arrivals p) ->
     flags (snd (_start_server pid as_uri basename p (init root completions))) =
       (true, true, false)).
Proof.
  split; [|split; [|split]].
  - intros h params self H0 H1.
    destruct (call_cases h params self) as [H|[_ H]]; unfold flags in H.
    + injection H as H _ _. congruence.
    + injection H as _ -> ->. auto.
  - intros pid as_uri basename p self H0 H1.
    destruct (start_server_flags pid as_uri basename p self) as [H|[H|H]];
      unfold flags in H.
    + injection H as H _ _. congruence.
    + now injection H as _ -> _.
    + now injection H as _ -> _.
  - intros self Hr. apply (reachable_latched self Hr).
  - intros pid as_uri basename root uri completions p Hu Hv He Ha.
    destruct (start_server_timeout_run pid as_uri basename root uri completions p Hu Hv He Ha)
      as (s4 & Hrun & Hf).
    rewrite Hrun. unfold flags in *. injection Hf as _ _ Hfound. cbn. now rewrite Hfound.
Qed.

Lemma analysis_complete_implies_completions_available_witness :
  completions_available
    (snd (call H_window_show_message (dict [("message", JStr "Build succeeded")])
            (init "/w" false))) = true /\
  flags (snd (_start_server 4242 sample_as_uri sample_basename quiet_peer
                (init "/work/App" false))) = (true, true, false).
Proof.
  destruct analysis_complete_implies_completions_available as (Hcall & _ & _ & Htimeout).
  split.
  - exact (proj1 (Hcall H_window_show_message (dict [("message", JStr "Build succeeded")])
                    (init "/w" false) eq_refl eq_refl)).
  - exact (Htimeout 4242 sample_as_uri sample_basename "/work/App" "file:///work/App"
             false quiet_peer eq_refl quiet_peer_validated
             (proj1 quiet_peer_quiet) (proj2 quiet_peer_quiet)).
Defined.

(** * Further properties of the code *)

(** ** Log levels *)

Lemma info_logged_refl (s : SwiftLanguageServer) : info_logged s s.
Proof. exists []. split; [now rewrite app_nil_r | constructor]. Qed.

Lemma info_logged_trans (s1 s2 s3 : SwiftLanguageServer) :
  info_logged s1 s2 -> info_logged s2 s3 -> info_logged s1 s3.
Proof.
  intros (l1 & H1 & F1) (l2 & H2 & F2). exists (l1 ++ l2)%list. split.
  - rewrite H2, H1. now rewrite app_assoc.
  - now apply Forall_app.
Qed.

(** The handlers log at level [INFO] only. *)
Lemma call_info_logged (h : handler) (params : json) (s : SwiftLanguageServer) :
  info_logged s (snd (call h params s)).
Proof.
  unfold info_logged.
  destruct h; run_handler;
    repeat match goal with
    | |- context [match ?x with _ => _ end] => destruct x eqn:?; cbn
    end;
    first
      [ exists []; split; [now rewrite app_nil_r | constructor]
      | eexists; split; [rewrite <- ?app_assoc; reflexivity | repeat constructor] ].
Qed.

Lemma info_logged_same (s s' : SwiftLanguageServer) :
  logger s' = logger s -> info_logged s s'.
Proof. intros H. exists []. split; [now rewrite app_nil_r | constructor]. Qed.

Lemma deliver_info_logged (m : inbound) (s : SwiftLanguageServer) :
  info_logged s (snd (deliver m s)).
Proof.
  destruct m as [method params|method params]; unfold deliver; do 2 step.
  - destruct (_ !! method) as [h|]; [|now apply info_logged_same].
    match goal with |- context [call ?h ?p ?s0] =>
      apply (info_logged_trans s s0); [now apply info_logged_same|];
      apply (call_info_logged h p s0) end.
  - destruct (_ !! method) as [h|]; [|now apply info_logged_same].
    match goal with |- context [call ?h ?p ?s0] =>
      apply (info_logged_trans s s0); [now apply info_logged_same|];
      pose proof (call_info_logged h p s0) as Hc;
      destruct (call h p s0) as [[result|e] s'] end.
    + eapply info_logged_trans; [exact Hc|]. now apply info_logged_same.
    + exact Hc.
Qed.

Lemma deliver_all_info_logged (ms : list inbound) (s : SwiftLanguageServer) :
  info_logged s (snd (deliver_all ms s)).
Proof.
  revert s. induction ms as [|m ms IH]; intros s; [apply info_logged_refl|].
  cbn [deliver_all]. erewrite bind_ret_step by apply deliver_ret.
  eapply info_logged_trans; [apply deliver_info_logged | apply IH].
Qed.

Lemma analysis_complete_wait_info_logged (ms : list inbound) (s : SwiftLanguageServer) :
  info_logged s (snd (analysis_complete_wait ms s)).
Proof. rewrite analysis_complete_wait_state. apply deliver_all_info_logged. Qed.

Lemma warnings_app (l1 l2 : list (fstring * Z)) :
  warnings (l1 ++ l2) = (warnings l1 ++ warnings l2)%list.
Proof. apply filter_app. Qed.

Lemma warnings_info (records : list (fstring * Z)) :
  Forall (fun r => snd r = INFO) records -> warnings records = [].
Proof.
  induction 1 as [|r l Hr Hl IH]; [reflexivity|].
  unfold warnings. rewrite filter_cons_False; [exact IH|].
  rewrite Hr. discriminate.
Qed.

Lemma info_logged_warnings (s s' : SwiftLanguageServer) :
  info_logged s s' -> warnings (logger s') = warnings (logger s).
Proof.
  intros (records & -> & Hf). rewrite warnings_app, (warnings_info _ Hf).
  apply app_nil_r.
Qed.

(** ** Runs that pass the handshake *)

(** The run of [_start_server] on a fresh object once the check of the
    response has passed. *)
Lemma start_server_success_run (pid : Z) (as_uri : string -> outcome string)
    (basename : string -> string) (root uri : string) (completions : bool) (p : peer)
    (capabilities : json) (b1 b2 : bool) :
  as_uri root = Ret uri ->
  py_get (init_response p) "capabilities" (JObj ∅) = Ret capabilities ->
  py_in "textDocumentSync" capabilities = Ret true ->
  py_in "completionProvider" capabilities = Ret b1 ->
  py_in "definitionProvider" capabilities = Ret b2 ->
  _start_server pid as_uri basename p (init root completions) =
    let s4 :=
      snd (analysis_complete_wait (arrivals p)
             (awaiting b1 b2
                (handshaken p
                   (JObj (<["processId" := JInt pid]>
                            (list_to_map (initialize_entries basename root uri uri))))
                   (init root completions)))) in
    if analysis_complete s4 then (Ret tt, logged ready_record s4)
    else (Ret tt,
          with_completions_available true
            (with_analysis_complete true (logged timeout_warning s4))).
Proof.
  intros Hu Hcaps Hsync H1 H2. rewrite start_server_run.
  change (repository_root_path (init root completions)) with root.
  rewrite (get_initialize_params_ret _ _ _ _ _ Hu). cbn zeta.
  rewrite Hcaps, Hsync, H1, H2. reflexivity.
Qed.

(** On a run from a fresh object the readiness fields are as [__init__]
    left them until a handler sets all three. *)
Lemma awaited_flags (p : peer) (params : json) (root : string) (completions : bool)
    (b1 b2 : bool) :
  let s4 := snd (analysis_complete_wait (arrivals p)
                   (awaiting b1 b2 (handshaken p params (init root completions)))) in
  flags s4 = (false, completions, false) \/ flags s4 = (true, true, true).
Proof.
  cbn zeta.
  destruct (analysis_complete_wait_served (arrivals p)
              (awaiting b1 b2 (handshaken p params (init root completions))))
    as (_ & _ & _ & _ & _ & [H|H]); [|now right].
  rewrite H, awaiting_flags.
  destruct (handshaken_flags p params (init root completions)) as [H2|H2]; auto.
Qed.

Lemma awaiting_wire (b1 b2 : bool) (s : SwiftLanguageServer) :
  wire (server (awaiting b1 b2 s)) =
    (wire (server s) ++ [SentNotification "initialized" (JObj ∅)])%list.
Proof. now destruct b1, b2. Qed.

Lemma awaiting_logger (b1 b2 : bool) (s : SwiftLanguageServer) :
  logger (awaiting b1 b2 s) =
    (logger s ++ (if b1 then [] else [completion_warning]) ++
       (if b2 then [] else [definition_warning]) ++
       [([Lit "Waiting for SourceKit-LSP to complete initial workspace analysis..."], INFO)])%list.
Proof.
  destruct b1, b2; cbn [awaiting warned logged with_logger wired with_server logger];
    rewrite <- ?app_assoc; try reflexivity; now rewrite ?app_nil_r.
Qed.

(** ** X1 *)

(** X1.  Once the initialize response carries "textDocumentSync",
    [_start_server] on a fresh object always returns normally, whatever
    else the response holds or lacks and whatever the server sends: the
    initialized notification has gone out and both events are set. *)
Theorem start_server_reaches_ready (pid : Z) (as_uri : string -> outcome string)
    (basename : string -> string) (root uri : string) (completions : bool) (p : peer) :
  as_uri root = Ret uri ->
  validated (init_response p) ->
  let r := _start_server pid as_uri basename p (init root completions) in
  fst r = Ret tt /\
  analysis_complete (snd r) = true /\
  completions_available (snd r) = true /\
  SentNotification "initialized" (JObj ∅) ∈ wire (server (snd r)).
Proof.
  intros Hu (capabilities & Hcaps & Hsync).
  destruct (py_in_total _ "completionProvider" _ _ Hsync) as [b1 H1].
  destruct (py_in_total _ "definitionProvider" _ _ Hsync) as [b2 H2].
  cbn zeta.
  rewrite (start_server_success_run pid as_uri basename root uri completions p
             capabilities b1 b2 Hu Hcaps Hsync H1 H2).
  cbn zeta.
  match goal with |- context [analysis_complete_wait ?ms ?s] =>
    destruct (analysis_complete_wait_served ms s) as (_ & _ & _ & (events & Hw & _) & _);
    pose proof (awaited_flags p
      (JObj (<["processId" := JInt pid]>
               (list_to_map (initialize_entries basename root uri uri))))
      root completions b1 b2) as Hf;
    cbn zeta in Hf;
    set (s4 := snd (analysis_complete_wait ms s)) in *
  end.
  rewrite awaiting_wire in Hw.
  assert (SentNotification "initialized" (JObj ∅) ∈ wire (server s4)) as Hin.
  { rewrite Hw, !elem_of_app, list_elem_of_singleton. auto. }
  destruct (analysis_complete s4) eqn:Ha; cbn [fst snd].
  - repeat split; try exact Hin; try exact Ha.
    destruct Hf as [Hf|Hf]; unfold flags in Hf.
    + injection Hf as Hf _ _. congruence.
    + now injection Hf as _ Hf _.
  - repeat split; exact Hin.
Qed.

Lemma start_server_reaches_ready_witness :
  fst (_start_server 4242 sample_as_uri sample_basename (building_peer [])
         (init "/work/App" false)) = Ret tt /\
  analysis_complete
    (snd (_start_server 4242 sample_as_uri sample_basename (building_peer [])
            (init "/work/App" false))) = true.
Proof.
  assert (validated (init_response (building_peer []))) as Hv.
  { exists (dict [("textDocumentSync", JInt 2)]). split; reflexivity. }
  destruct (start_server_reaches_ready 4242 sample_as_uri sample_basename
              "/work/App" "file:///work/App" false (building_peer []) eq_refl Hv)
    as (H1 & H2 & _).
  split; [exact H1 | exact H2].
Defined.

(** ** X2 *)

Lemma handshaken_warnings (p : peer) (params : json) (root : string) (completions : bool) :
  warnings (logger (handshaken p params (init root completions))) = [].
Proof.
  unfold handshaken.
  match goal with |- context [deliver_all ?ms ?s] =>
    pose proof (info_logged_warnings _ _ (deliver_all_info_logged ms s)) as H end.
  cbn [logged wired with_logger with_server logger].
  rewrite warnings_app, H. reflexivity.
Qed.

(** X2.  The warnings of a run that passes the handshake, on a fresh
    object, are in this order: one for "completionProvider" when the
    response lacks it, one for "definitionProvider" when the response
    lacks it, and the timeout warning when the run ends with
    [found_source_files] still false, that is, when no handler set the
    signal.  The log holds no other record at level [WARNING]. *)
Theorem start_server_warnings (pid : Z) (as_uri : string -> outcome string)
    (basename : string -> string) (root uri : string) (completions : bool) (p : peer)
    (capabilities : json) (has_completion has_definition : bool) :
  as_uri root = Ret uri ->
  py_get (init_response p) "capabilities" (JObj ∅) = Ret capabilities ->
  py_in "textDocumentSync" capabilities = Ret true ->
  py_in "completionProvider" capabilities = Ret has_completion ->
  py_in "definitionProvider" capabilities = Ret has_definition ->
  let r := _start_server pid as_uri basename p (init root completions) in
  warnings (logger (snd r)) =
    ((if has_completion then [] else [completion_warning]) ++
     (if has_definition then [] else [definition_warning]) ++
     (if found_source_files (snd r) then [] else [timeout_warning]))%list.
Proof.
  intros Hu Hcaps Hsync H1 H2. cbn zeta.
  rewrite (start_server_success_run pid as_uri basename root uri completions p
             capabilities has_completion has_definition Hu Hcaps Hsync H1 H2).
  cbn zeta.
  match goal with |- context [analysis_complete_wait ?ms ?s] =>
    pose proof (info_logged_warnings _ _ (analysis_complete_wait_info_logged ms s)) as Hw;
    pose proof (awaited_flags p
      (JObj (<["processId" := JInt pid]>
               (list_to_map (initialize_entries basename root uri uri))))
      root completions has_completion has_definition) as Hf;
    cbn zeta in Hf;
    set (s4 := snd (analysis_complete_wait ms s)) in *
  end.
  rewrite awaiting_logger, !warnings_app, handshaken_warnings in Hw.
  assert (warnings (logger s4) =
          ((if has_completion then [] else [completion_warning]) ++
           (if has_definition then [] else [definition_warning]))%list) as Hw'.
  { rewrite Hw. destruct has_completion, has_definition; reflexivity. }
  destruct (analysis_complete s4) eqn:Ha; cbn [snd].
  - destruct Hf as [Hf|Hf]; unfold flags in Hf.
    + injection Hf as Hf _ _. congruence.
    + injection Hf as _ _ Hf.
      cbn [logged with_logger logger found_source_files]. rewrite Hf.
      rewrite warnings_app, Hw'. cbn. now rewrite !app_nil_r.
  - destruct Hf as [Hf|Hf]; unfold flags in Hf.
    + injection Hf as _ _ Hf.
      cbn [logged with_logger with_analysis_complete with_completions_available
           logger found_source_files].
      rewrite Hf, warnings_app, Hw'. rewrite <- app_assoc. reflexivity.
    + injection Hf as Hf _ _. congruence.
Qed.

Lemma start_server_warnings_witness :
  warnings (logger (snd (_start_server 4242 sample_as_uri sample_basename
                           (building_peer []) (init "/work/App" false)))) =
  [completion_warning; definition_warning].
Proof.
  pose proof (start_server_warnings 4242 sample_as_uri sample_basename
                "/work/App" "file:///work/App" false (building_peer [])
                (dict [("textDocumentSync", JInt 2)]) false false
                eq_refl eq_refl eq_refl eq_refl eq_refl) as H.
  cbn zeta in H. rewrite H.
  assert (found_source_files
            (snd (_start_server 4242 sample_as_uri sample_basename
                    (building_peer []) (init "/work/App" false))) = true) as ->.
  { rewrite start_server_run.
    change (repository_root_path (init "/work/App" false)) with "/work/App".
    rewrite (get_initialize_params_ret _ sample_as_uri _ _ "file:///work/App" eq_refl).
    generalize (JObj (<["processId" := JInt 4242]>
                  (list_to_map (initialize_entries sample_basename "/work/App"
                                  "file:///work/App" "file:///work/App")))).
    intros params. vm_compute. reflexivity. }
  reflexivity.
Defined.

(** ** X3 *)

(** A matching message served on the tables of [_start_server] sets the
    three readiness fields, unless [found_source_files] was set without
    the signal. *)
Lemma deliver_match (m : inbound) (s : SwiftLanguageServer) (completions : bool) :
  routed s ->
  flags s = (false, completions, false) \/ flags s = (true, true, true) ->
  inbound_match m ->
  flags (snd (deliver m s)) = (true, true, true).
Proof.
  intros [_ Hn] Hf Hm.
  assert (forall h params s0,
            flags s0 = flags s -> readiness_match h params ->
            flags (snd (call h params s0)) = (true, true, true)) as Hfire.
  { intros h params s0 H0 Hr. destruct Hf as [Hf|Hf].
    - apply call_fires; [exact Hr|]. right. rewrite Hf in H0.
      unfold flags in H0. now injection H0 as _ _ ->.
    - destruct (call_cases h params s0) as [H|[_ H]]; congruence. }
  destruct Hm as [params Hr|params Hr|params Hr]; unfold deliver; do 2 step;
    rewrite Hn; cbn [snd];
    match goal with |- context [install_notification_handlers ∅ !! ?k] =>
      change (install_notification_handlers ∅ !! k) with (Some (A:=handler)
        match k with
        | "window/logMessage" => H_window_log_message
        | "window/showMessage" => H_window_show_message
        | _ => H_progress_notification
        end) end;
    cbn [snd]; now apply Hfire.
Qed.

Lemma deliver_fresh_flags (m : inbound) (s : SwiftLanguageServer) (completions : bool) :
  flags s = (false, completions, false) \/ flags s = (true, true, true) ->
  flags (snd (deliver m s)) = (false, completions, false) \/
  flags (snd (deliver m s)) = (true, true, true).
Proof.
  intros Hf. destruct (deliver_served m s) as (_ & _ & _ & _ & _ & [H|H]); [|now right].
  now rewrite H.
Qed.

Lemma deliver_all_match (ms : list inbound) (s : SwiftLanguageServer) (completions : bool) :
  routed s ->
  flags s = (false, completions, false) \/ flags s = (true, true, true) ->
  Exists inbound_match ms ->
  flags (snd (deliver_all ms s)) = (true, true, true).
Proof.
  intros Hr Hf Hex. revert s Hr Hf.
  induction Hex as [m ms Hm|m ms Hex IH]; intros s Hr Hf;
    cbn [deliver_all]; erewrite bind_ret_step by apply deliver_ret.
  - pose proof (deliver_match m s completions Hr Hf Hm) as H.
    destruct (deliver_all_served ms (snd (deliver m s))) as (_ & _ & _ & _ & _ & [H'|H']);
      congruence.
  - apply IH.
    + eapply served_routed; [apply deliver_served | exact Hr].
    + now apply deliver_fresh_flags.
Qed.

Lemma analysis_complete_wait_match (ms : list inbound) (s : SwiftLanguageServer)
    (completions : bool) :
  routed s ->
  flags s = (false, completions, false) \/ flags s = (true, true, true) ->
  Exists inbound_match ms ->
  flags (snd (analysis_complete_wait ms s)) = (true, true, true).
Proof. rewrite analysis_complete_wait_state. apply deliver_all_match. Qed.

Lemma handshaken_fresh_flags (p : peer) (params : json) (root : string) (completions : bool) :
  flags (handshaken p params (init root completions)) = (false, completions, false) \/
  flags (handshaken p params (init root completions)) = (true, true, true).
Proof. destruct (handshaken_flags p params (init root completions)) as [H|H]; auto. Qed.

Lemma handshaken_match (p : peer) (params : json) (root : string) (completions : bool) :
  Exists inbound_match (early p) ->
  flags (handshaken p params (init root completions)) = (true, true, true).
Proof.
  intros Hex. unfold handshaken.
  match goal with |- context [deliver_all ?ms ?s] =>
    change (flags (snd (deliver_all ms s)) = (true, true, true)) end.
  apply (deliver_all_match _ _ completions); [split; reflexivity|now left|exact Hex].
Qed.

(** X3.  When a message that matches a readiness rule arrives during
    start-up, before the initialize response or during the wait, a run
    that passes the handshake ends with the three readiness fields set by
    the handler, and its last log record says the analysis is complete:
    the wait did not time out. *)
Theorem start_server_ready_by_match (pid : Z) (as_uri : string -> outcome string)
    (basename : string -> string) (root uri : string) (completions : bool) (p : peer) :
  as_uri root = Ret uri ->
  validated (init_response p) ->
  Exists inbound_match (early p ++ arrivals p) ->
  let r := _start_server pid as_uri basename p (init root completions) in
  fst r = Ret tt /\
  flags (snd r) = (true, true, true) /\
  (exists records, logger (snd r) = (records ++ [ready_record])%list) /\
  timeout_warning ∉ warnings (logger (snd r)).
Proof.
  intros Hu (capabilities & Hcaps & Hsync) Hex.
  destruct (py_in_total _ "completionProvider" _ _ Hsync) as [b1 H1].
  destruct (py_in_total _ "definitionProvider" _ _ Hsync) as [b2 H2].
  cbn zeta.
  rewrite (start_server_success_run pid as_uri basename root uri completions p
             capabilities b1 b2 Hu Hcaps Hsync H1 H2).
  cbn zeta.
  set (params := JObj (<["processId" := JInt pid]>
                         (list_to_map (initialize_entries basename root uri uri)))).
  assert (flags (snd (analysis_complete_wait (arrivals p)
                        (awaiting b1 b2 (handshaken p params (init root completions))))) =
          (true, true, true)) as Hf.
  { apply Exists_app in Hex as [Hex|Hex].
    - destruct (analysis_complete_wait_served (arrivals p)
                  (awaiting b1 b2 (handshaken p params (init root completions))))
        as (_ & _ & _ & _ & _ & [H|H]); [|exact H].
      rewrite H, awaiting_flags. now apply handshaken_match.
    - apply (analysis_complete_wait_match _ _ completions); [| |exact Hex].
      + apply awaiting_routed, handshaken_routed.
      + rewrite awaiting_flags. apply handshaken_fresh_flags. }
  pose proof (info_logged_warnings _ _
    (analysis_complete_wait_info_logged (arrivals p)
       (awaiting b1 b2 (handshaken p params (init root completions))))) as Hw.
  rewrite awaiting_logger, !warnings_app, handshaken_warnings in Hw.
  set (s4 := snd (analysis_complete_wait (arrivals p)
                    (awaiting b1 b2 (handshaken p params (init root completions))))) in *.
  unfold flags in Hf. injection Hf as Ha Hc Hfound. rewrite Ha. cbn [fst snd].
  split; [reflexivity|]. split; [|split].
  - unfold flags. cbn. now rewrite Ha, Hc, Hfound.
  - exists (logger s4). reflexivity.
  - cbn [logged with_logger logger]. rewrite warnings_app, Hw.
    destruct b1, b2; cbn; intros Hin;
      repeat (apply elem_of_cons in Hin as [Hin|Hin]; [discriminate Hin|]);
      exact (proj1 (elem_of_nil _) Hin).
Qed.

Lemma building_peer_match (later : list inbound) :
  Exists inbound_match (early (building_peer later) ++ arrivals (building_peer later)).
Proof.
  apply Exists_cons_hd, inbound_log_message.
  apply match_log_message with "Build complete"; [reflexivity|].
  exists "build complete". split.
  - unfold log_message_keywords. rewrite !elem_of_cons. tauto.
  - exists "", "Build complete", "". split; reflexivity.
Defined.

Lemma building_peer_validated (later : list inbound) :
  validated (init_response (building_peer later)).
Proof. exists (dict [("textDocumentSync", JInt 2)]). split; reflexivity. Defined.

Lemma start_server_ready_by_match_witness :
  flags (snd (_start_server 4242 sample_as_uri sample_basename (building_peer [])
                (init "/work/App" false))) = (true, true, true).
Proof.
  exact (proj1 (proj2 (start_server_ready_by_match 4242 sample_as_uri sample_basename
    "/work/App" "file:///work/App" false (building_peer []) eq_refl
    (building_peer_validated []) (building_peer_match [])))).
Defined.

(** ** X5, X6: runs that fail *)

(** X5.  When the root path has no file URI ([as_uri] raises),
    [_start_server] raises that exception after it has installed the
    handlers and started the server process: the wire has gained [Started]
    and nothing else, no initialize request went out, and the readiness
    fields are untouched. *)
Theorem start_server_uri_failure (pid : Z) (as_uri : string -> outcome string)
    (basename : string -> string) (p : peer) (self : SwiftLanguageServer) (e : exn) :
  as_uri (repository_root_path self) = Raise e ->
  let r := _start_server pid as_uri basename p self in
  fst r = Raise e /\
  wire (server (snd r)) = (wire (server self) ++ [Started])%list /\
  request_handlers (server (snd r)) =
    install_request_handlers (request_handlers (server self)) /\
  notification_handlers (server (snd r)) =
    install_notification_handlers (notification_handlers (server self)) /\
  flags (snd r) = flags self.
Proof.
  intros Hu. cbn zeta. rewrite start_server_run.
  rewrite (get_initialize_params_raise _ _ _ _ _ Hu). repeat split.
Qed.

Lemma start_server_uri_failure_witness :
  fst (_start_server 4242 (fun _ => Raise ValueError) sample_basename quiet_peer
         (init "App" false)) = Raise ValueError /\
  wire (server (snd (_start_server 4242 (fun _ => Raise ValueError) sample_basename
                       quiet_peer (init "App" false)))) = [Started].
Proof.
  destruct (start_server_uri_failure 4242 (fun _ => Raise ValueError) sample_basename
              quiet_peer (init "App" false) ValueError eq_refl) as (H1 & H2 & _).
  split; [exact H1 | exact H2].
Defined.

Lemma handshaken_not_initialized (p : peer) (params : json) (root : string)
    (completions : bool) :
  forallb (fun e => negb (is_initialized_notification e))
    (wire (server (handshaken p params (init root completions)))) = true.
Proof.
  destruct (handshaken_wire p params (init root completions)) as (events & Hw & Hf).
  cbn [init server wire app] in Hw. rewrite Hw.
  cbn [forallb is_initialized_notification negb andb].
  rewrite forallb_app, (inbound_traffic_not_initialized _ Hf). reflexivity.
Qed.

(** X6.  A response that is no dictionary makes [_start_server] raise
    [AttributeError], and a "capabilities" value that is no dictionary,
    list or string makes it raise [TypeError]; on a fresh object, either
    way, no initialized notification is sent. *)
Theorem start_server_malformed_response (pid : Z) (as_uri : string -> outcome string)
    (basename : string -> string) (root uri : string) (completions : bool) (p : peer) :
  as_uri root = Ret uri ->
  let r := _start_server pid as_uri basename p (init root completions) in
  ((forall m, init_response p <> JObj m) ->
   fst r = Raise AttributeError /\
   forallb (fun e => negb (is_initialized_notification e)) (wire (server (snd r))) = true) /\
  (forall (m : gmap string json) (capabilities : json),
     init_response p = JObj m ->
     m !! "capabilities" = Some capabilities ->
     (forall d, capabilities <> JObj d) ->
     (forall l, capabilities <> JList l) ->
     (forall t, capabilities <> JStr t) ->
     fst r = Raise TypeError /\
     forallb (fun e => negb (is_initialized_notification e)) (wire (server (snd r))) = true).
Proof.
  intros Hu. cbn zeta. rewrite start_server_run.
  change (repository_root_path (init root completions)) with root.
  rewrite (get_initialize_params_ret _ _ _ _ _ Hu). cbn zeta. split.
  - intros Hnot. destruct (init_response p) eqn:Hr; try (split;
      [reflexivity | apply handshaken_not_initialized]).
    now destruct (Hnot m).
  - intros m capabilities Hr Hc Hd Hl Ht. rewrite Hr. cbn [py_get]. rewrite Hc.
    destruct capabilities as [| | | |t|l|d];
      try (split; [reflexivity | apply handshaken_not_initialized]).
    + now destruct (Ht t).
    + now destruct (Hl l).
    + now destruct (Hd d).
Qed.

Lemma start_server_malformed_response_witness :
  fst (_start_server 4242 sample_as_uri sample_basename (mk_peer [] JNull [])
         (init "/work/App" false)) = Raise AttributeError /\
  fst (_start_server 4242 sample_as_uri sample_basename
         (mk_peer [] (dict [("capabilities", JNull)]) [])
         (init "/work/App" false)) = Raise TypeError.
Proof.
  split.
  - refine (proj1 (proj1 (start_server_malformed_response 4242 sample_as_uri
      sample_basename "/work/App" "file:///work/App" false (mk_peer [] JNull []) eq_refl) _)).
    intros m. discriminate.
  - refine (proj1 (proj2 (start_server_malformed_response 4242 sample_as_uri
      sample_basename "/work/App" "file:///work/App" false
      (mk_peer [] (dict [("capabilities", JNull)]) []) eq_refl)
      (list_to_map [("capabilities", JNull)]) JNull eq_refl eq_refl _ _ _)); discriminate.
Defined.

(** ** X7 to X11: the handlers at the edges *)

(** X7.  A log or show-message notification whose "message" is not a
    string makes the handler raise [AttributeError], after it has logged
    the notification and before it touches any readiness field; a
    notification without "message" is logged, matches nothing and returns
    [None]. *)
Theorem window_message_not_text (m : gmap string json) (self : SwiftLanguageServer) :
  (forall v, m !! "message" = Some v -> (forall t, v <> JStr t) ->
     window_log_message (JObj m) self =
       (Raise AttributeError,
        logged ([Lit "LSP: window/logMessage: "; Fmt v], INFO) self) /\
     window_show_message (JObj m) self =
       (Raise AttributeError,
        logged ([Lit "LSP: window/showMessage (type=";
                 Fmt (default (JInt 1) (m !! "type")); Lit "): "; Fmt v], INFO) self)) /\
  (m !! "message" = None ->
     window_log_message (JObj m) self =
       (Ret JNull, logged ([Lit "LSP: window/logMessage: "; Fmt (JStr "")], INFO) self) /\
     window_show_message (JObj m) self =
       (Ret JNull,
        logged ([Lit "LSP: window/showMessage (type=";
                 Fmt (default (JInt 1) (m !! "type")); Lit "): "; Fmt (JStr "")], INFO) self)).
Proof.
  split.
  - intros v Hm Hv. split; run_handler; rewrite Hm;
      destruct v as [| | | |t| |]; try reflexivity; now destruct (Hv t).
  - intros Hm. split; run_handler; rewrite Hm; reflexivity.
Qed.

Lemma window_message_not_text_witness :
  fst (window_log_message (dict [("message", JInt 7)]) (init "/w" false)) =
    Raise AttributeError /\
  fst (window_show_message (dict [("type", JInt 3)]) (init "/w" false)) = Ret JNull.
Proof.
  destruct (window_message_not_text (list_to_map [("message", JInt 7)]) (init "/w" false))
    as [H1 _].
  destruct (window_message_not_text (list_to_map [("type", JInt 3)]) (init "/w" false))
    as [_ H2].
  split.
  - exact (f_equal fst (proj1 (H1 (JInt 7) eq_refl ltac:(discriminate)))).
  - exact (f_equal fst (proj2 (H2 eq_refl))).
Defined.

(** X8.  The progress handler looks at the message only when the kind is
    "end": with any other kind, or none, it returns [None] and changes
    nothing, whatever "message" holds; with kind "end" a "message" that is
    not a string raises [AttributeError], the object unchanged.  A
    notification without "value" changes nothing; a "value" that is not a
    dictionary raises [AttributeError]. *)
Theorem progress_notification_edges (m : gmap string json) (self : SwiftLanguageServer) :
  (m !! "value" = None -> progress_notification (JObj m) self = (Ret JNull, self)) /\
  (forall v, m !! "value" = Some v -> (forall d, v <> JObj d) ->
     progress_notification (JObj m) self = (Raise AttributeError, self)) /\
  (forall value, m !! "value" = Some (JObj value) ->
     default (JStr "") (value !! "kind") <> JStr "end" ->
     progress_notification (JObj m) self = (Ret JNull, self)) /\
  (forall value message, m !! "value" = Some (JObj value) ->
     value !! "kind" = Some (JStr "end") ->
     value !! "message" = Some message ->
     (forall t, message <> JStr t) ->
     progress_notification (JObj m) self = (Raise AttributeError, self)).
Proof.
  split; [|split; [|split]].
  - intros Hv. run_handler. rewrite Hv. reflexivity.
  - intros v Hv Hd. run_handler. rewrite Hv.
    destruct v as [| | | | | |d]; try reflexivity. now destruct (Hd d).
  - intros value Hv Hk. run_handler. rewrite Hv.
    cbn -[py_any_keyword_in_lower py_eq_str].
    destruct (py_eq_str _ "end") eqn:He; [|reflexivity].
    apply py_eq_str_true in He. unfold default in Hk. contradiction.
  - intros value message Hv Hk Hm Ht. run_handler. rewrite Hv.
    cbn -[py_any_keyword_in_lower py_eq_str]. rewrite Hk, Hm.
    destruct message as [| | | |t| |]; try reflexivity. now destruct (Ht t).
Qed.

Lemma progress_notification_edges_witness :
  progress_notification
    (dict [("value", dict [("kind", JStr "report"); ("message", JInt 40)])])
    (init "/w" false) = (Ret JNull, init "/w" false) /\
  progress_notification
    (dict [("value", dict [("kind", JStr "end"); ("message", JInt 40)])])
    (init "/w" false) = (Raise AttributeError, init "/w" false).
Proof.
  split.
  - refine (proj1 (proj2 (proj2 (progress_notification_edges
      (list_to_map [("value", dict [("kind", JStr "report"); ("message", JInt 40)])])
      (init "/w" false))))
      (list_to_map [("kind", JStr "report"); ("message", JInt 40)]) eq_refl _).
    discriminate.
  - refine (proj2 (proj2 (proj2 (progress_notification_edges
      (list_to_map [("value", dict [("kind", JStr "end"); ("message", JInt 40)])])
      (init "/w" false))))
      (list_to_map [("kind", JStr "end"); ("message", JInt 40)]) (JInt 40)
      eq_refl eq_refl eq_refl _).
    discriminate.
Defined.

(** X9.  The configuration handler sizes its reply with [len]: without
    "items" the reply is the empty list, with a dictionary or a string for
    "items" it has one empty object per key or per code point, and with
    anything that has no length ([None], a number) the handler raises
    [TypeError].  Like the other two request handlers it never changes
    the object, whatever it is given. *)
Theorem workspace_configuration_edges (m : gmap string json) (params : json)
    (self : SwiftLanguageServer) :
  (m !! "items" = None ->
     fst (workspace_configuration_handler (JObj m) self) = Ret (JList [])) /\
  (forall d : gmap string json, m !! "items" = Some (JObj d) ->
     fst (workspace_configuration_handler (JObj m) self) =
       Ret (JList (replicate (size d) (JObj ∅)))) /\
  (forall t : string, m !! "items" = Some (JStr t) ->
     fst (workspace_configuration_handler (JObj m) self) =
       Ret (JList (replicate (py_str_len t) (JObj ∅)))) /\
  (forall items, m !! "items" = Some items ->
     (forall d, items <> JObj d) -> (forall l, items <> JList l) ->
     (forall t, items <> JStr t) ->
     fst (workspace_configuration_handler (JObj m) self) = Raise TypeError) /\
  snd (workspace_configuration_handler params self) = self /\
  execute_client_command_handler params self = (Ret (JList []), self) /\
  do_nothing params self = (Ret JNull, self).
Proof.
  repeat split.
  - intros Hm. run_handler. now rewrite Hm.
  - intros d Hm. run_handler. now rewrite Hm.
  - intros t Hm. run_handler. now rewrite Hm.
  - intros items Hm Hd Hl Ht. run_handler. rewrite Hm.
    destruct items as [| | | |t|l|d]; try reflexivity.
    + now destruct (Ht t).
    + now destruct (Hl l).
    + now destruct (Hd d).
  - run_handler.
    repeat match goal with
    | |- context [match ?x with _ => _ end] => destruct x eqn:?; cbn
    end; reflexivity.
Qed.

Lemma workspace_configuration_edges_witness :
  fst (workspace_configuration_handler (dict [("items", JNull)]) (init "/w" false)) =
    Raise TypeError /\
  fst (workspace_configuration_handler (dict []) (init "/w" false)) = Ret (JList []) /\
  fst (workspace_configuration_handler (dict [("items", JStr "né")]) (init "/w" false)) =
    Ret (JList [JObj ∅; JObj ∅]).
Proof.
  split; [|split].
  - refine (proj1 (proj2 (proj2 (proj2 (workspace_configuration_edges
      (list_to_map [("items", JNull)]) JNull (init "/w" false)))))
      JNull eq_refl _ _ _); discriminate.
  - exact (proj1 (workspace_configuration_edges (list_to_map []) JNull (init "/w" false))
             eq_refl).
  - pose proof (proj1 (proj2 (proj2 (workspace_configuration_edges
             (list_to_map [("items", JStr "né")]) JNull (init "/w" false))))
             "né") as H.
    apply H. vm_compute; reflexivity.
Defined.

Lemma any_keyword_in_lower_same_text (keywords : list string) (text text' : string) :
  same_text_ci text text' = true ->
  any_keyword_in_lower keywords text = any_keyword_in_lower keywords text'.
Proof.
  intros H. unfold any_keyword_in_lower. now rewrite (same_text_ci_lower _ _ H).
Qed.

(** X10.  The log and show-message handlers do not see the case of
    ASCII letters: two notifications that differ in their message text
    only, and there only in the case of letters, leave the same readiness
    fields and the same outcome. *)
Theorem window_message_case_insensitive (h : handler) (m : gmap string json)
    (text text' : string) (self : SwiftLanguageServer) :
  h = H_window_log_message \/ h = H_window_show_message ->
  same_text_ci text text' = true ->
  flags (snd (call h (JObj (<["message" := JStr text]> m)) self)) =
    flags (snd (call h (JObj (<["message" := JStr text']> m)) self)) /\
  fst (call h (JObj (<["message" := JStr text]> m)) self) =
    fst (call h (JObj (<["message" := JStr text']> m)) self).
Proof.
  intros [-> | ->] Hl; run_handler; rewrite !lookup_insert_eq;
    rewrite !py_any_keyword_in_lower_str;
    rewrite (any_keyword_in_lower_same_text _ _ _ Hl);
    destruct (any_keyword_in_lower _ text'); cbn; try (split; reflexivity);
    destruct (found_source_files self); split; reflexivity.
Qed.

Lemma window_message_case_insensitive_witness :
  flags (snd (call H_window_show_message
                (JObj (<["message" := JStr "BUILD Succeeded."]> ∅)) (init "/w" false))) =
  flags (snd (call H_window_show_message
                (JObj (<["message" := JStr "build succeeded."]> ∅)) (init "/w" false))).
Proof.
  exact (proj1 (window_message_case_insensitive H_window_show_message ∅
                  "BUILD Succeeded." "build succeeded." (init "/w" false)
                  (or_intror eq_refl) eq_refl)).
Defined.

(** X11.  While neither the signal nor [found_source_files] is set, a
    handler call sets the signal exactly when its notification matches the
    handler's rule: there are no false positives and no missed matches. *)
Theorem handler_fires_iff_match (h : handler) (params : json)
    (self : SwiftLanguageServer) :
  analysis_complete self = false ->
  found_source_files self = false ->
  analysis_complete (snd (call h params self)) = true <-> readiness_match h params.
Proof.
  intros Ha Hf. split.
  - intros H. destruct (call_cases h params self) as [H'|[Hm _]]; [|exact Hm].
    unfold flags in H'. injection H' as H' _ _. congruence.
  - intros Hm. pose proof (call_fires h params self Hm (or_intror Hf)) as H.
    unfold flags in H. now injection H as H _ _.
Qed.

Lemma handler_fires_iff_match_witness :
  ~ readiness_match H_window_log_message (dict [("message", JStr "Indexing")]) /\
  analysis_complete
    (snd (call H_window_log_message (dict [("message", JStr "Swift PacKage Resolved")])
            (init "/w" false))) = true.
Proof.
  split.
  - intros Hm.
    apply (handler_fires_iff_match H_window_log_message (dict [("message", JStr "Indexing")])
             (init "/w" false) eq_refl eq_refl) in Hm.
    vm_compute in Hm. discriminate Hm.
  - apply (handler_fires_iff_match H_window_log_message
             (dict [("message", JStr "Swift PacKage Resolved")])
             (init "/w" false) eq_refl eq_refl).
    apply match_log_message with "Swift PacKage Resolved"; [reflexivity|].
    exists "swift package resolved". split.
    + rewrite !elem_of_cons. tauto.
    + exists "", "Swift PacKage Resolved", "". split; reflexivity.
Defined.

(** ** X12, X13: what every state keeps *)

(** X12.  In every state the object goes through, [found_source_files]
    is true only if the readiness signal is set. *)
Theorem found_source_files_implies_ready (self : SwiftLanguageServer) :
  reachable self ->
  found_source_files self = true ->
  analysis_complete self = true /\ completions_available self = true.
Proof.
  intros Hr Hf. destruct (reachable_latched self Hr) as [H1 H2]. auto.
Qed.

Lemma found_source_files_implies_ready_witness :
  analysis_complete
    (snd (call H_window_log_message (dict [("message", JStr "Finished indexing")])
            (init "/w" false))) = true.
Proof.
  exact (proj1 (found_source_files_implies_ready
    (snd (call H_window_log_message (dict [("message", JStr "Finished indexing")])
            (init "/w" false)))
    (reachable_call _ _ _ (reachable_init "/w" false)) eq_refl)).
Defined.

(** X13.  Nothing in the class clears a readiness field: across a handler
    call and across a run of [_start_server], from any state, each of the
    two events and [found_source_files] stays set once it is set. *)
Theorem readiness_fields_never_cleared (self : SwiftLanguageServer) :
  (forall (h : handler) (params : json),
     (analysis_complete self = true ->
      analysis_complete (snd (call h params self)) = true) /\
     (completions_available self = true ->
      completions_available (snd (call h params self)) = true) /\
     (found_source_files self = true ->
      found_source_files (snd (call h params self)) = true)) /\
  (forall (pid : Z) (as_uri : string -> outcome string) (basename : string -> string)
          (p : peer),
     (analysis_complete self = true ->
      analysis_complete (snd (_start_server pid as_uri basename p self)) = true) /\
     (completions_available self = true ->
      completions_available (snd (_start_server pid as_uri basename p self)) = true) /\
     (found_source_files self = true ->
      found_source_files (snd (_start_server pid as_uri basename p self)) = true)).
Proof.
  split.
  - intros h params.
    destruct (call_cases h params self) as [H|[_ H]]; unfold flags in H;
      injection H as -> -> ->; auto.
  - intros pid as_uri basename p.
    destruct (start_server_flags pid as_uri basename p self) as [H|[H|H]];
      unfold flags in H; injection H as -> -> ->; auto.
Qed.

Lemma readiness_fields_never_cleared_witness :
  analysis_complete
    (snd (_start_server 4242 sample_as_uri sample_basename quiet_peer
            (snd (call H_window_log_message (dict [("message", JStr "Build complete")])
                    (init "/work/App" false))))) = true.
Proof.
  exact (proj1 (proj2 (readiness_fields_never_cleared
    (snd (call H_window_log_message (dict [("message", JStr "Build complete")])
            (init "/work/App" false))))
    4242 sample_as_uri sample_basename quiet_peer) eq_refl).
Defined.

(** ** X14: the requests the client answers *)

Lemma warned_routed (has : bool) (capability : string) (s : SwiftLanguageServer) :
  routed s -> routed (warned has capability s).
Proof. now destruct has. Qed.

(** However a run of [_start_server] on a fresh object ends, it leaves
    the seven registrations in the tables. *)
Lemma start_server_routed (pid : Z) (as_uri : string -> outcome string)
    (basename : string -> string) (root : string) (completions : bool) (p : peer) :
  routed (snd (_start_server pid as_uri basename p (init root completions))).
Proof.
  rewrite start_server_run.
  destruct (_get_initialize_params _ _ _ _) as [params|e]; [|split; reflexivity].
  cbn zeta. pose proof (handshaken_routed p params root completions) as H2.
  destruct (py_get _ _ _) as [capabilities|e]; [|exact H2].
  destruct (py_in "textDocumentSync" _) as [[]|e]; try exact H2.
  destruct (py_in "completionProvider" _) as [b1|e]; [|exact H2].
  destruct (py_in "definitionProvider" _) as [b2|e]; [|now apply warned_routed].
  pose proof (served_routed _ _
    (analysis_complete_wait_served (arrivals p)
       (awaiting b1 b2 (handshaken p params (init root completions))))
    (awaiting_routed b1 b2 _ H2)) as H4.
  destruct (analysis_complete _); exact H4.
Qed.

(** X14.  After a run of [_start_server] on a fresh object, however it
    ended, the reader thread answers a workspace/configuration request
    with one empty object per requested item, a client/registerCapability
    request with [None] and a workspace/executeClientCommand request with
    the empty list, and it takes a textDocument/publishDiagnostics
    notification without any effect; in each case only the wire changes. *)
Theorem requests_answered_after_start (pid : Z) (as_uri : string -> outcome string)
    (basename : string -> string) (root : string) (completions : bool) (p : peer) :
  let s := snd (_start_server pid as_uri basename p (init root completions)) in
  (forall (m : gmap string json) (items : list json),
     m !! "items" = Some (JList items) ->
     snd (deliver (Request "workspace/configuration" (JObj m)) s) =
       wired (SentReply (JList (replicate (length items) (JObj ∅))))
         (wired (ReceivedRequest "workspace/configuration" (JObj m)) s)) /\
  (forall params,
     snd (deliver (Request "client/registerCapability" params) s) =
       wired (SentReply JNull)
         (wired (ReceivedRequest "client/registerCapability" params) s)) /\
  (forall params,
     snd (deliver (Request "workspace/executeClientCommand" params) s) =
       wired (SentReply (JList []))
         (wired (ReceivedRequest "workspace/executeClientCommand" params) s)) /\
  (forall params,
     snd (deliver (Notification "textDocument/publishDiagnostics" params) s) =
       wired (ReceivedNotification "textDocument/publishDiagnostics" params) s).
Proof.
  cbn zeta.
  destruct (start_server_routed pid as_uri basename root completions p) as [Hq Hn].
  set (s := snd (_start_server pid as_uri basename p (init root completions))) in *.
  assert (request_handlers (server s) !! "workspace/configuration" =
          Some H_workspace_configuration_handler) as H1 by (now rewrite Hq).
  assert (request_handlers (server s) !! "client/registerCapability" =
          Some H_do_nothing) as H2 by (now rewrite Hq).
  assert (request_handlers (server s) !! "workspace/executeClientCommand" =
          Some H_execute_client_command_handler) as H3 by (now rewrite Hq).
  assert (notification_handlers (server s) !! "textDocument/publishDiagnostics" =
          Some H_do_nothing) as H4 by (now rewrite Hn).
  clearbody s. clear Hq Hn.
  split; [|split; [|split]].
  - intros m items Hm. unfold deliver. do 2 step. rewrite H1.
    cbn [call]. unfold workspace_configuration_handler, bind, eval, ret.
    cbn [py_get]. rewrite Hm. reflexivity.
  - intros params. unfold deliver. do 2 step. rewrite H2. reflexivity.
  - intros params. unfold deliver. do 2 step. rewrite H3. reflexivity.
  - intros params. unfold deliver. do 2 step. rewrite H4. reflexivity.
Qed.

Lemma requests_answered_after_start_witness :
  wire (server (snd (deliver
    (Request "workspace/configuration" (dict [("items", JList [JNull; JNull])]))
    (snd (_start_server 4242 (fun _ => Raise ValueError) sample_basename quiet_peer
            (init "App" false)))))) =
  [ Started;
    ReceivedRequest "workspace/configuration" (dict [("items", JList [JNull; JNull])]);
    SentReply (JList [JObj ∅; JObj ∅]) ].
Proof.
  pose proof (proj1 (requests_answered_after_start 4242 (fun _ => Raise ValueError)
                       sample_basename "App" false quiet_peer)) as H.
  cbn zeta in H.
  specialize (H (list_to_map [("items", JList [JNull; JNull])]) [JNull; JNull] eq_refl).
  unfold dict. rewrite H. reflexivity.
Defined.

(** ** X15: matching is by containment *)

Lemma rule_matches_extend (keywords : list string) (pre text post : string) :
  rule_matches keywords text -> rule_matches keywords (pre +:+ text +:+ post).
Proof.
  intros (k & Hin & a & mid & b & -> & Hmid).
  exists k. split; [exact Hin|].
  exists (pre +:+ a), mid, (b +:+ post). split; [|exact Hmid].
  now rewrite !string_app_assoc.
Qed.

(** X15.  A text that makes the log handler set the signal keeps doing so
    with anything written before and after it: when a call on a state with
    the signal unset sets it, a call with the longer message sets the
    three readiness fields from any state. *)
Theorem window_log_message_containment (m m' : gmap string json)
    (pre text post : string) (self self' : SwiftLanguageServer) :
  analysis_complete self = false ->
  analysis_complete
    (snd (window_log_message (JObj (<["message" := JStr text]> m)) self)) = true ->
  flags (snd (window_log_message
                (JObj (<["message" := JStr (pre +:+ text +:+ post)]> m')) self')) =
    (true, true, true).
Proof.
  intros Ha Hset.
  destruct (call_cases H_window_log_message (JObj (<["message" := JStr text]> m)) self)
    as [H|[Hm _]]; cbn [call] in *.
  - unfold flags in H. injection H as H _ _. congruence.
  - inversion Hm as [m0 text0 Hl Hr| |]; subst. rewrite lookup_insert_eq in Hl.
    injection Hl as <-.
    apply (call_fires H_window_log_message); [|now left].
    apply match_log_message with (pre +:+ text +:+ post); [apply lookup_insert_eq|].
    now apply rule_matches_extend.
Qed.

Lemma window_log_message_containment_witness :
  flags (snd (window_log_message
                (JObj (<["message" := JStr ("[sourcekit] " +:+ "Indexing complete" +:+
                                            " in 3.2s")]> ∅))
                (init "/w" true))) = (true, true, true).
Proof.
  exact (window_log_message_containment ∅ ∅ "[sourcekit] " "Indexing complete" " in 3.2s"
           (init "/w" false) (init "/w" true) eq_refl eq_refl).
Defined.

(** ** X17: the traffic of a handshake that passes *)

(** X17.  On a fresh object, a run that passes the handshake has this
    traffic: the process is started first; the one initialize request
    follows at once and carries the document [_get_initialize_params]
    builds for the object's root path; then whatever the reader thread
    served before the response, the response, the one initialized
    notification with empty parameters; and after it only what the reader
    thread served during the wait. *)
Theorem start_server_handshake_traffic (pid : Z) (as_uri : string -> outcome string)
    (basename : string -> string) (root uri : string) (completions : bool) (p : peer) :
  as_uri root = Ret uri ->
  validated (init_response p) ->
  exists document served_early served_waiting,
    _get_initialize_params pid as_uri basename root = Ret document /\
    wire (server (snd (_start_server pid as_uri basename p (init root completions)))) =
      (Started :: SentRequest "initialize" document :: served_early ++
         [ReceivedResponse (init_response p);
          SentNotification "initialized" (JObj ∅)] ++ served_waiting)%list /\
    forallb inbound_traffic served_early = true /\
    forallb inbound_traffic served_waiting = true.
Proof.
  intros Hu (capabilities & Hcaps & Hsync).
  destruct (py_in_total _ "completionProvider" _ _ Hsync) as [b1 H1].
  destruct (py_in_total _ "definitionProvider" _ _ Hsync) as [b2 H2].
  rewrite (start_server_success_run pid as_uri basename root uri completions p
             capabilities b1 b2 Hu Hcaps Hsync H1 H2).
  rewrite (get_initialize_params_ret _ _ _ _ _ Hu). cbn zeta.
  set (document := JObj (<["processId" := JInt pid]>
                           (list_to_map (initialize_entries basename root uri uri)))).
  destruct (handshaken_wire p document (init root completions)) as (ev1 & Hw1 & Hf1).
  cbn [init server wire app] in Hw1.
  destruct (analysis_complete_wait_served (arrivals p)
              (awaiting b1 b2 (handshaken p document (init root completions))))
    as (_ & _ & _ & (ev2 & Hw2 & Hf2) & _).
  rewrite awaiting_wire, Hw1 in Hw2.
  exists document, ev1, ev2. split; [reflexivity|]. split; [|split; assumption].
  destruct (analysis_complete _); cbn [snd logged with_logger with_analysis_complete
    with_completions_available server]; rewrite Hw2; cbn [app];
    now rewrite <- !app_assoc.
Qed.

Lemma start_server_handshake_traffic_witness :
  exists document served_early served_waiting,
    wire (server (snd (_start_server 4242 sample_as_uri sample_basename quiet_peer
                         (init "/work/App" false)))) =
      (Started :: SentRequest "initialize" document :: served_early ++
         [ReceivedResponse (init_response quiet_peer);
          SentNotification "initialized" (JObj ∅)] ++ served_waiting)%list.
Proof.
  destruct (start_server_handshake_traffic 4242 sample_as_uri sample_basename
              "/work/App" "file:///work/App" false quiet_peer eq_refl
              quiet_peer_validated) as (d & e1 & e2 & _ & H & _).
  exists d, e1, e2. exact H.
Defined.
